(** * Tool access control and model routing in the agent examples

    A shallow embedding of the decision logic found in
    - [examples/mcp/tool_filtering_example/main.py],
    - [examples/mcp/tool_filtering_example/dynamic_config_filter.py],
    - [examples/basic/stream_items.py],
    followed by the properties the specification states about it.

    Python code runs in a small state-and-exception monad: the state holds
    every object the code could reach and mutate (its arguments, [self], the
    module globals and standard output), so that "does not mutate" and
    "does not raise" are statements about the embedding and not conventions. *)

From Stdlib Require Import String List Bool.
From stdpp Require Import base option list gmap strings.

Open Scope string_scope.

(** ** Python values and control *)

Module Py.

(** The exception the modelled code can raise: [exit(1)] raises
    [SystemExit]. *)
Inductive Exception : Type :=
| SystemExit (status : nat).

Inductive result (A : Type) : Type :=
| Returned (a : A)
| Raised (e : Exception).
Arguments Returned {A} a.
Arguments Raised {A} e.

(** A computation over a store [S]. *)
Definition M (S A : Type) : Type := S -> result A * S.

Definition ret {S A} (a : A) : M S A := fun s => (Returned a, s).

Definition bind {S A B} (m : M S A) (k : A -> M S B) : M S B :=
  fun s =>
    match m s with
    | (Returned a, s') => k a s'
    | (Raised e, s') => (Raised e, s')
    end.

Definition raise {S A} (e : Exception) : M S A := fun s => (Raised e, s).

(** Reading an attribute or a global. *)
Definition read {S A} (f : S -> A) : M S A := fun s => (Returned (f s), s).

(** Assigning to the store. *)
Definition modify {S} (f : S -> S) : M S unit := fun s => (Returned tt, f s).

Definition outcome {S A} (m : M S A) (s : S) : result A := fst (m s).
Definition final {S A} (m : M S A) (s : S) : S := snd (m s).

(** [raises m s]: running [m] from [s] ends in an exception. *)
Definition raises {S A} (m : M S A) (s : S) : Prop :=
  exists e, outcome m s = Raised e.

(** Truthiness of a value of type [str | None]: [None] and the empty
    string are falsy. *)
Definition truthy (v : option string) : bool :=
  match v with
  | None => false
  | Some s => negb (String.eqb s "")
  end.

(** [a or b] on values of type [str | None]. *)
Definition or_ (a b : option string) : option string :=
  if truthy a then a else b.

(** [s.startswith(p)]. *)
Definition startswith (s p : string) : bool := String.prefix p s.

(** [x in l] for a list of strings. *)
Definition in_ (x : string) (l : list string) : bool :=
  existsb (String.eqb x) l.

(** How an f-string renders a value of type [str | None]. *)
Definition fmt (v : option string) : string := default "None" v.

(** [os.getenv(key)] and [os.getenv(key, default)]. *)
Definition getenv (environ : gmap string string) (key : string) : option string :=
  environ !! key.
Definition getenv_default (environ : gmap string string) (key dflt : string) : string :=
  default dflt (environ !! key).

End Py.

Notation "x <- m ;; k" := (Py.bind m (fun x => k))
  (at level 100, m at next level, right associativity).
Notation "m ;;; k" := (Py.bind m (fun _ => k))
  (at level 100, right associativity).

(** ** Library classes used by the examples *)

(** The exceptions the model routing code runs into, by class.  Both are
    instances of [Exception]: [TypeError] is what a call that omits a required
    argument raises, [OpenAIError] what the [openai] package raises when it is
    given no key and finds none. *)
Module PyError.
Inductive t : Type :=
| TypeError
| OpenAIError.
End PyError.

(** Modelled from the spec: the class [AsyncOpenAI] of the [openai] package is
    not part of the sources.  It is taken as the record of its two constructor
    arguments, the [credential] and [baseUrl] of the spec's
    ModelEndpointDescriptor; either may be [None]. *)
Module AsyncOpenAI.
Record t : Type := new { base_url : option string; api_key : option string }.

(** The call [AsyncOpenAI(api_key=..., base_url=...)].  A client that is given
    no key takes the one of the environment variable [OPENAI_API_KEY], and the
    call raises when there is none either. *)
Definition __init__ (environ : gmap string string) (api_key base_url : option string)
  : PyError.t + t :=
  match api_key, Py.getenv environ "OPENAI_API_KEY" with
  | None, None => inl PyError.OpenAIError
  | _, _ => inr {| base_url := base_url; api_key := api_key |}
  end.
End AsyncOpenAI.

(** Modelled from the spec: the class [OpenAIChatCompletionsModel] of the
    [agents] package is not part of the sources.  A model is taken as the
    spec's ModelEndpointDescriptor: [model] is its [modelId], and
    [openai_client] the client that holds its [credential] and [baseUrl]. *)
Module OpenAIChatCompletionsModel.
Record t : Type := new { model : option string; openai_client : AsyncOpenAI.t }.

(** The call [OpenAIChatCompletionsModel(model=..., openai_client=...)].  The
    constructor requires both arguments; [openai_client] is [None] here when
    the call leaves the argument out, and the call then raises [TypeError], as
    a Python call without a required argument does. *)
Definition __init__ (model : option string) (openai_client : option AsyncOpenAI.t)
  : PyError.t + t :=
  match openai_client with
  | Some client => inr {| model := model; openai_client := client |}
  | None => inl PyError.TypeError
  end.
End OpenAIChatCompletionsModel.

(** Modelled from the spec: the tool descriptor handed to a filter, with the
    [name] the filters read and the remaining content as an opaque mapping. *)
Module Tool.
Record t : Type := new { name : string; metadata : gmap string string }.
End Tool.

(** Modelled from the spec: an agent, of which filters read the [name]. *)
Module Agent.
Record t : Type := new { name : string; instructions : string }.
End Agent.

(** Modelled from the spec: the context handed to a filter; [agent] is what the
    filters read, the remaining content is an opaque mapping. *)
Module ToolFilterContext.
Record t : Type := new { agent : Agent.t; extensions : gmap string string }.
End ToolFilterContext.

(** ** The MCP tool filtering examples

    [main.py] and [dynamic_config_filter.py] declare the same module globals
    and the same class [CustomModelProvider], line for line; they are embedded
    once. *)

Module ToolFilteringExample.
Import Py.

(** The module globals, and standard output. *)
Record Globals : Type := {
  BASE_URL : option string;
  API_KEY : option string;
  MODEL_NAME : string;
  stdout : list string
}.

Definition print (line : string) : M Globals unit :=
  modify (fun g => {| BASE_URL := BASE_URL g; API_KEY := API_KEY g;
                      MODEL_NAME := MODEL_NAME g;
                      stdout := stdout g ++ [line] |}).

(** Module initialisation of [dynamic_config_filter.py]: the three
    [os.getenv] reads. *)
Definition load (environ : gmap string string) : Globals :=
  {| BASE_URL := getenv environ "MODEL_BASE_URL";
     API_KEY := getenv environ "MODEL_API_KEY";
     MODEL_NAME := getenv_default environ "MODEL_NAME" "gpt-4o";
     stdout := [] |}.

(** Module initialisation of [main.py]: the same reads, then the three
    values are printed. *)
Definition load_main (environ : gmap string string) : Globals :=
  final (print ("BASE_URL: " ++ fmt (getenv environ "MODEL_BASE_URL")) ;;;
         print ("API_KEY: " ++ fmt (getenv environ "MODEL_API_KEY")) ;;;
         print ("MODEL_NAME: " ++ getenv_default environ "MODEL_NAME" "gpt-4o"))
        (load environ).

Module CustomModelProvider.

Record t : Type := {
  base_url : option string;
  api_key : option string;
  default_model : string;
  client : option AsyncOpenAI.t
}.

(** What a method can reach: [self] and the module. *)
Record Frame : Type := { self : t; globals : Globals }.

Definition __init__ (base_url api_key : option string) (default_model : string)
  : M Globals t :=
  if truthy base_url && truthy api_key then
    print ("Using custom model provider: " ++ fmt base_url) ;;;
    ret {| base_url := base_url; api_key := api_key;
           default_model := default_model;
           client := Some (AsyncOpenAI.new base_url api_key) |}
  else
    print "Using default OpenAI model provider" ;;;
    ret {| base_url := base_url; api_key := api_key;
           default_model := default_model;
           client := None |}.

(** The value is the model, or the exception the constructor call raises. *)
Definition get_model (model_name : option string)
  : M Frame (PyError.t + OpenAIChatCompletionsModel.t) :=
  default_model <- read (fun f => default_model (self f)) ;;
  let model_to_use := or_ model_name (Some default_model) in
  client <- read (fun f => client (self f)) ;;
  match client with
  | Some c => ret (OpenAIChatCompletionsModel.__init__ model_to_use (Some c))
  | None => ret (OpenAIChatCompletionsModel.__init__ model_to_use None)
  end.

End CustomModelProvider.

(** What a tool filter can reach: its two arguments and the module. *)
Record FilterFrame : Type := {
  context : ToolFilterContext.t;
  tool : Tool.t;
  filter_globals : Globals
}.

Definition agent_name_of (f : FilterFrame) : string :=
  Agent.name (ToolFilterContext.agent (context f)).
Definition tool_name_of (f : FilterFrame) : string := Tool.name (tool f).

(** [custom_filter] of [main.py]. *)
Definition custom_filter : M FilterFrame bool :=
  tool_name <- read tool_name_of ;;
  ret (startswith tool_name "read_" || startswith tool_name "list_").

(** [context_aware_filter] of [dynamic_config_filter.py]. *)
Definition context_aware_filter : M FilterFrame bool :=
  agent_name <- read agent_name_of ;;
  if String.eqb agent_name "ReadOnlyAgent" then
    tool_name <- read tool_name_of ;;
    ret (startswith tool_name "read_" || startswith tool_name "list_")
  else if String.eqb agent_name "AdminAgent" then
    ret true
  else if String.eqb agent_name "BasicAgent" then
    tool_name <- read tool_name_of ;;
    ret (in_ tool_name ["read_file"; "list_directory"])
  else
    ret false.

(** [main] builds the provider from the module globals. *)
Definition make_provider : M Globals CustomModelProvider.t :=
  base_url <- read BASE_URL ;;
  api_key <- read API_KEY ;;
  default_model <- read MODEL_NAME ;;
  CustomModelProvider.__init__ base_url api_key default_model.

End ToolFilteringExample.

(** ** The streaming example, [stream_items.py] *)

Module StreamItems.
Import Py.

(** The module globals, and standard output.  The client is built once,
    when the module is loaded. *)
Record Globals : Type := {
  MODEL_API_KEY : option string;
  MODEL_BASE_URL : option string;
  MODEL_NAME : option string;
  client : AsyncOpenAI.t;
  stdout : list string
}.

Definition print (line : string) : M Globals unit :=
  modify (fun g => {| MODEL_API_KEY := MODEL_API_KEY g;
                      MODEL_BASE_URL := MODEL_BASE_URL g;
                      MODEL_NAME := MODEL_NAME g;
                      client := client g;
                      stdout := stdout g ++ [line] |}).

(** Loading the module: the three [os.getenv] reads, then the client, whose
    constructor may raise; the module is then not loaded. *)
Definition load (environ : gmap string string) : PyError.t + Globals :=
  let model_api_key := getenv environ "MODEL_API_KEY" in
  let model_base_url := getenv environ "MODEL_BASE_URL" in
  let model_name := getenv environ "MODEL_NAME" in
  match AsyncOpenAI.__init__ environ model_api_key model_base_url with
  | inl e => inl e
  | inr client =>
      inr {| MODEL_API_KEY := model_api_key;
             MODEL_BASE_URL := model_base_url;
             MODEL_NAME := model_name;
             client := client;
             stdout := [] |}
  end.

Module CustomModelProvider.

(** The class has no attribute of its own. *)
Inductive t : Type := new.

Record Frame : Type := { self : t; globals : Globals }.

(** The value is the model, or the exception the constructor call raises. *)
Definition get_model (model_name : option string)
  : M Frame (PyError.t + OpenAIChatCompletionsModel.t) :=
  default_name <- read (fun f => MODEL_NAME (globals f)) ;;
  client <- read (fun f => client (globals f)) ;;
  ret (OpenAIChatCompletionsModel.__init__ (or_ model_name default_name) (Some client)).

End CustomModelProvider.

Definition CUSTOM_MODEL_PROVIDER : CustomModelProvider.t := CustomModelProvider.new.

(** The [if __name__ == "__main__"] block; [main] stands for
    [asyncio.run(main())], the agent run itself. *)
Definition __main__ (main : M Globals unit) : M Globals unit :=
  api_key <- read MODEL_API_KEY ;;
  base_url <- read MODEL_BASE_URL ;;
  name <- read MODEL_NAME ;;
  if negb (truthy api_key) || negb (truthy base_url) || negb (truthy name) then
    print "Error: Please set MODEL_API_KEY, MODEL_BASE_URL, and MODEL_NAME in your .env file" ;;;
    raise (SystemExit 1)
  else
    main.

End StreamItems.

(** ** The tool access gate *)

Module Gate.
Import Py.

(** Modelled from the spec: the configuration errors of its error
    taxonomy. *)
Inductive ConfigurationError : Type :=
| AmbiguousStaticRule
| MissingCredential.

(** Modelled from the spec: the filter rule bound to a tool-server
    connection.  The [agents.mcp] package that implements it is not part of
    the sources.  A static rule has an allowed set, a blocked set or neither;
    a dynamic rule is a predicate, which may fail ([None]). *)
Inductive FilterRule : Type :=
| StaticAllowed (allowed : gset string)
| StaticBlocked (blocked : gset string)
| StaticNeither
| Dynamic (predicate : ToolFilterContext.t -> Tool.t -> option bool).

(** Modelled from the spec: [create_static_tool_filter] of [agents.mcp],
    which binds a static rule; a rule with both sets is rejected. *)
Definition create_static_tool_filter
    (allowed_tool_names blocked_tool_names : option (list string))
  : ConfigurationError + FilterRule :=
  match allowed_tool_names, blocked_tool_names with
  | Some _, Some _ => inl AmbiguousStaticRule
  | Some a, None => inr (StaticAllowed (list_to_set a))
  | None, Some b => inr (StaticBlocked (list_to_set b))
  | None, None => inr StaticNeither
  end.

(** Modelled from the spec: the decision of a rule on one descriptor; a
    failing predicate denies. *)
Definition evaluate (rule : FilterRule) (ctx : ToolFilterContext.t) (t : Tool.t) : bool :=
  match rule with
  | StaticAllowed allowed => bool_decide (Tool.name t ∈ allowed)
  | StaticBlocked blocked => bool_decide (Tool.name t ∉ blocked)
  | StaticNeither => true
  | Dynamic predicate =>
      match predicate ctx t with
      | Some b => b
      | None => false
      end
  end.

(** Modelled from the spec: the gate applies the rule to every descriptor of
    the catalog, in order. *)
Definition resolve (rule : FilterRule) (ctx : ToolFilterContext.t)
    (catalog : list Tool.t) : list Tool.t :=
  List.filter (evaluate rule ctx) catalog.

(** A filter function of the examples, called by the gate with the module
    globals [g]; an exception is a failure of the predicate. *)
Definition as_predicate (g : ToolFilteringExample.Globals)
    (f : M ToolFilteringExample.FilterFrame bool)
  : ToolFilterContext.t -> Tool.t -> option bool :=
  fun ctx t =>
    match outcome f {| ToolFilteringExample.context := ctx;
                       ToolFilteringExample.tool := t;
                       ToolFilteringExample.filter_globals := g |} with
    | Returned b => Some b
    | Raised _ => None
    end.

End Gate.

(** ** Vocabulary of the properties *)

Import Py.

Module TF := ToolFilteringExample.
Module SI := StreamItems.

(** [returns m s post]: running [m] from [s] raises nothing and its value
    satisfies [post]. *)
Definition returns {S A} (m : M S A) (s : S) (post : A -> Prop) : Prop :=
  exists a, outcome m s = Returned a /\ post a.

(** [yields m s post]: running [m] from [s] raises nothing, of either kind,
    and its value satisfies [post]. *)
Definition yields {S A} (m : M S (PyError.t + A)) (s : S) (post : A -> Prop) : Prop :=
  exists a, outcome m s = Returned (inr a) /\ post a.

(** [s] starts with [p], said without the code's [startswith]. *)
Definition starts_with (s p : string) : Prop := exists rest, s = p ++ rest.

(** A provider of the MCP examples, seen from one of its methods. *)
Definition provider_frame (p : TF.CustomModelProvider.t) (g : TF.Globals)
  : TF.CustomModelProvider.Frame :=
  {| TF.CustomModelProvider.self := p; TF.CustomModelProvider.globals := g |}.

(** A call of a tool filter with arguments [ctx] and [t]. *)
Definition filter_frame (ctx : ToolFilterContext.t) (t : Tool.t) (g : TF.Globals)
  : TF.FilterFrame :=
  {| TF.context := ctx; TF.tool := t; TF.filter_globals := g |}.

(** A sequence of calls, one per argument, each starting where the previous one
    ended. *)
Fixpoint call_each {S A B} (call : A -> M S B) (args : list A) : M S (list B) :=
  match args with
  | [] => ret []
  | a :: rest =>
      b <- call a ;;
      bs <- call_each call rest ;;
      ret (b :: bs)
  end.

(** The file-system catalog of the spec's scenarios. *)
Definition filesystem_tools : list string :=
  ["read_file"; "list_directory"; "write_file"; "delete_file"].

(** The statement that a requested name, when present, is the model id of the
    returned model. *)
Definition present_name_is_bound : Prop :=
  forall (f : TF.CustomModelProvider.Frame) (name : string)
         (m : OpenAIChatCompletionsModel.t),
    outcome (TF.CustomModelProvider.get_model (Some name)) f = Returned (inr m) ->
    OpenAIChatCompletionsModel.model m = Some name.

(** ** The agent run of [stream_items.py] *)

(** Not part of the sources: the run items of the [agents] package.  An item
    is taken as what [main] reads from it: its [type], its [output] as an
    f-string renders it, and the text [ItemHelpers.text_message_output]
    extracts from it. *)
Module RunItem.
Record t : Type := new { type : string; output : string; text_message_output : string }.
End RunItem.

(** Not part of the sources: the stream events of the [agents] package.  An
    event is taken as what [main] reads from it: its [type], the agent it
    announces and the item it carries. *)
Module StreamEvent.
Record t : Type := new { type : string; new_agent : Agent.t; item : RunItem.t }.
End StreamEvent.

Module StreamItemsRun.
Import Py.

(** The line feed inside the f-string of the last branch. *)
Definition LF : string := String (Ascii.ascii_of_nat 10) "".

(** The body of the [async for] loop of [main]. *)
Definition on_event (event : StreamEvent.t) : M StreamItems.Globals unit :=
  if String.eqb (StreamEvent.type event) "raw_response_event" then
    ret tt
  else if String.eqb (StreamEvent.type event) "agent_updated_stream_event" then
    StreamItems.print ("Agent updated: " ++ Agent.name (StreamEvent.new_agent event))
  else if String.eqb (StreamEvent.type event) "run_item_stream_event" then
    if String.eqb (RunItem.type (StreamEvent.item event)) "tool_call_item" then
      StreamItems.print "-- Tool was called"
    else if String.eqb (RunItem.type (StreamEvent.item event)) "tool_call_output_item" then
      StreamItems.print ("-- Tool output: " ++ RunItem.output (StreamEvent.item event))
    else if String.eqb (RunItem.type (StreamEvent.item event)) "message_output_item" then
      StreamItems.print ("-- Message output:" ++ LF ++ " " ++
                         RunItem.text_message_output (StreamEvent.item event))
    else
      ret tt
  else
    ret tt.

(** A [for] loop over a finite sequence. *)
Fixpoint for_each {S A} (body : A -> M S unit) (items : list A) : M S unit :=
  match items with
  | [] => ret tt
  | item :: rest => body item ;;; for_each body rest
  end.

(** [main]; [events] is what [result.stream_events()] yields for the run that
    [Runner.run_streamed] started. *)
Definition main (events : list StreamEvent.t) : M StreamItems.Globals unit :=
  StreamItems.print "=== Run starting ===" ;;;
  for_each on_event events ;;;
  StreamItems.print "=== Run complete ===".

End StreamItemsRun.

(** ** Ordinary exceptions and the world outside the scripts *)

(** Not part of the sources: an instance of [Exception], the kind of exception
    an [except Exception] clause catches.  It is taken as what the handlers of
    the scripts read from it: [str(e)], [repr(e)] and [e.__cause__]. *)
Module Exc.
Inductive t : Type :=
| raised (str_ repr_ : string)
| raised_from (str_ repr_ : string) (cause : t).
Definition str (e : t) : string :=
  match e with raised s _ | raised_from s _ _ => s end.
Definition repr (e : t) : string :=
  match e with raised _ r | raised_from _ r _ => r end.
Definition __cause__ (e : t) : option t :=
  match e with raised _ _ => None | raised_from _ _ cause => Some cause end.
End Exc.

(** Not part of the sources: a connected MCP server, of which the scripts do
    nothing but hand it to the agents they build. *)
Module MCPServer.
Record t : Type := new { name : string }.
End MCPServer.

(** An agent as the MCP examples build it: its name and instructions, and the
    servers it is given.  The model settings are the same constant for every
    agent of the examples and are left out. *)
Module McpAgent.
Record t : Type := new { agent : Agent.t; mcp_servers : list MCPServer.t }.
End McpAgent.

(** Not part of the sources: the operating system, the Python runtime and the
    [agents] package, as far as the scripts call them.  [World] is whatever
    these act on (the file system, the server processes, the network); each
    operation is an arbitrary function of it.  [Runner_run] and
    [get_all_tools] may end in an exception that [except Exception] does not
    catch, which is a [Raised] result. *)
Module Runtime.
Record t (World : Type) : Type := {
  which : string -> World -> option string;
  __file__ : list string;
  path_exists : list string -> World -> bool;
  makedirs : list string -> World -> (Exc.t + unit) * World;
  write_text : list string -> string -> World -> (Exc.t + unit) * World;
  repr_str : string -> string;
  format_exc : Exc.t -> string;
  Runner_run : McpAgent.t -> string -> ToolFilteringExample.CustomModelProvider.t ->
               World -> Py.result (Exc.t + string) * World;
  get_all_tools : McpAgent.t -> World -> Py.result (Exc.t + list Tool.t) * World
}.
Arguments which {World} _ _ _.
Arguments __file__ {World} _.
Arguments path_exists {World} _ _ _.
Arguments makedirs {World} _ _ _.
Arguments write_text {World} _ _ _ _.
Arguments repr_str {World} _ _.
Arguments format_exc {World} _ _.
Arguments Runner_run {World} _ _ _ _ _.
Arguments get_all_tools {World} _ _ _.
End Runtime.

(** ** The scripts of the MCP examples *)

Module Scripts.
Import Py.

(** The state of a running script: the module globals with standard output,
    standard error, the tracing switch of the [agents] package, the outside
    world, and the calls made to [Runner.run] so far (agent name and input). *)
Record Process (World : Type) : Type := {
  globals : ToolFilteringExample.Globals;
  stderr : list string;
  tracing_disabled : bool;
  world : World;
  runs : list (string * string)
}.
Arguments globals {World} _.
Arguments stderr {World} _.
Arguments tracing_disabled {World} _.
Arguments world {World} _.
Arguments runs {World} _.

(** [os.path.dirname] and [os.path.join] on absolute paths, which are lists of
    components. *)
Definition dirname (path : list string) : list string := removelast path.
Definition join (path parts : list string) : list string := path ++ parts.

(** How an f-string renders a list: the [repr] of its items between brackets. *)
Definition fmt_list {A} (repr_item : A -> string) (items : list A) : string :=
  "[" ++ String.concat ", " (map repr_item items) ++ "]".

(** The line feed. *)
Definition LF : string := String (Ascii.ascii_of_nat 10) "".

(** [RuntimeError(msg)] for a message without quotes or escapes. *)
Definition RuntimeError (msg : string) : Exc.t :=
  Exc.raised msg ("RuntimeError('" ++ msg ++ "')").

(** A computation of a script: it returns, raises an ordinary exception
    ([inl]), or ends in an exception of the other kind ([Raised]). *)
Definition X (World A : Type) : Type := M (Process World) (Exc.t + A).

(** The state in which a script starts. *)
Definition start {World} (g : ToolFilteringExample.Globals) (w : World) : Process World :=
  {| globals := g; stderr := []; tracing_disabled := false; world := w; runs := [] |}.

Section WithRuntime.

Context {World : Type} (rt : Runtime.t World).

Definition retx {A} (a : A) : X World A := ret (inr a).

Definition raisex {A} (e : Exc.t) : X World A := ret (inl e).

Definition bindx {A B} (m : X World A) (k : A -> X World B) : X World B :=
  bind m (fun r => match r with
                   | inl e => ret (inl e)
                   | inr a => k a
                   end).

(** [try: body / except Exception as e: handler e]. *)
Definition try_except {A} (body : X World A) (handler : Exc.t -> X World A) : X World A :=
  bind body (fun r => match r with
                      | inl e => handler e
                      | inr a => ret (inr a)
                      end).

(** Code that acts on the module globals only. *)
Definition on_globals {A} (m : M ToolFilteringExample.Globals A) : X World A :=
  fun s =>
    let (r, g) := m (globals s) in
    (match r with
     | Returned a => Returned (inr a)
     | Raised e => Raised e
     end,
     {| globals := g; stderr := stderr s; tracing_disabled := tracing_disabled s;
        world := world s; runs := runs s |}).

(** An operation of the operating system. *)
Definition on_world {A} (op : World -> (Exc.t + A) * World) : X World A :=
  fun s =>
    let (r, w) := op (world s) in
    (Returned r,
     {| globals := globals s; stderr := stderr s; tracing_disabled := tracing_disabled s;
        world := w; runs := runs s |}).

Definition print (text : string) : X World unit :=
  on_globals (ToolFilteringExample.print text).

(** [traceback.print_exc()], which writes to standard error. *)
Definition print_exc (e : Exc.t) : X World unit :=
  fun s =>
    (Returned (inr tt),
     {| globals := globals s; stderr := stderr s ++ [Runtime.format_exc rt e];
        tracing_disabled := tracing_disabled s; world := world s; runs := runs s |}).

Definition set_tracing_disabled (disabled : bool) : X World unit :=
  fun s =>
    (Returned (inr tt),
     {| globals := globals s; stderr := stderr s; tracing_disabled := disabled;
        world := world s; runs := runs s |}).

(** [Runner.run(starting_agent=agent, input=message,
    run_config=RunConfig(model_provider=model_provider))]; the value is the
    final output as [print] shows it. *)
Definition Runner_run (agent : McpAgent.t) (input : string)
    (model_provider : ToolFilteringExample.CustomModelProvider.t) : X World string :=
  fun s =>
    let (r, w) := Runtime.Runner_run rt agent input model_provider (world s) in
    (r,
     {| globals := globals s; stderr := stderr s; tracing_disabled := tracing_disabled s;
        world := w;
        runs := runs s ++ [(Agent.name (McpAgent.agent agent), input)] |}).

(** [agent.get_all_tools(...)]. *)
Definition get_all_tools (agent : McpAgent.t) : X World (list Tool.t) :=
  fun s =>
    let (r, w) := Runtime.get_all_tools rt agent (world s) in
    (r,
     {| globals := globals s; stderr := stderr s; tracing_disabled := tracing_disabled s;
        world := w; runs := runs s |}).

End WithRuntime.

End Scripts.

Notation "x <~ m ;; k" := (Scripts.bindx m (fun x => k))
  (at level 100, m at next level, right associativity).
Notation "m ;;~ k" := (Scripts.bindx m (fun _ => k))
  (at level 100, right associativity).

Module McpExamples.
Import Py Scripts.

Section WithRuntime.

Context {World : Type} (rt : Runtime.t World).

(** A [for] loop over a finite sequence. *)
Fixpoint for_each {A} (body : A -> X World unit) (items : list A) : X World unit :=
  match items with
  | [] => retx tt
  | item :: rest => body item ;;~ for_each body rest
  end.

(** The [if __name__ == "__main__"] block, the same in both scripts; [main]
    stands for [asyncio.run(main())]. *)
Definition __main__ (main : X World unit) : X World unit :=
  npx <~ on_world (fun w => (inr (Runtime.which rt "npx" w), w)) ;;
  if negb (truthy npx) then
    raisex (RuntimeError
              "npx is not installed. Please install Node.js and npm: https://nodejs.org/")
  else
    print "Model configuration:" ;;~
    model_name <~ on_globals (read ToolFilteringExample.MODEL_NAME) ;;
    print ("- MODEL_NAME: " ++ model_name) ;;~
    base_url <~ on_globals (read ToolFilteringExample.BASE_URL) ;;
    print ("- MODEL_BASE_URL: " ++
           (if truthy base_url then "configured" else "not configured")) ;;~
    api_key <~ on_globals (read ToolFilteringExample.API_KEY) ;;
    print ("- MODEL_API_KEY: " ++
           (if truthy api_key then "configured" else "not configured")) ;;~
    print "" ;;~
    main.

(** The sample directory [main] computes from the path of the script. *)
Definition samples_dir : list string :=
  let current_dir := dirname (Runtime.__file__ rt) in
  let parent_dir := dirname current_dir in
  join parent_dir ["filesystem_example"; "sample_files"].

(** The opening block of [main], the same in both scripts: the provider, the
    tracing switch and the sample directory. *)
Definition main_prologue : X World ToolFilteringExample.CustomModelProvider.t :=
  model_provider <~ on_globals ToolFilteringExample.make_provider ;;
  base_url <~ on_globals (read ToolFilteringExample.BASE_URL) ;;
  api_key <~ on_globals (read ToolFilteringExample.API_KEY) ;;
  (if truthy base_url && truthy api_key then set_tracing_disabled true else retx tt) ;;~
  present <~ on_world (fun w => (inr (Runtime.path_exists rt samples_dir w), w)) ;;
  (if negb present then
     on_world (Runtime.makedirs rt samples_dir) ;;~
     on_world (Runtime.write_text rt (join samples_dir ["example.txt"])
                                  "This is a sample file.")
   else
     retx tt) ;;~
  retx model_provider.

(** [main] of [dynamic_config_filter.py]; [with_server] stands for its
    [async with] block, which starts the server and holds the session. *)
Definition dynamic_config_filter_main
    (with_server : ToolFilteringExample.CustomModelProvider.t -> X World unit)
  : X World unit :=
  model_provider <~ main_prologue ;;
  print "=== Context-aware dynamic tool filtering example ===" ;;~
  print ("Dynamically determine available tools based on agent role" ++ LF) ;;~
  with_server model_provider.

(** The agent [run_with_static_filter] builds. *)
Definition assistant (mcp_server : MCPServer.t) : McpAgent.t :=
  {| McpAgent.agent :=
       {| Agent.name := "Assistant";
          Agent.instructions :=
            "Use tools to read the file system and answer questions based on these files." |};
     McpAgent.mcp_servers := [mcp_server] |}.

(** [run_with_static_filter] of [main.py]. *)
Definition run_with_static_filter (mcp_server : MCPServer.t)
    (model_provider : ToolFilteringExample.CustomModelProvider.t) : X World unit :=
  let agent := assistant mcp_server in
  let message := "Read and list available files." in
  print ("Running: " ++ message) ;;~
  try_except
    (result <~ Runner_run rt agent message model_provider ;;
     print result)
    (fun e =>
       print ("Exception occurred: " ++ Exc.str e) ;;~
       print_exc rt e ;;~
       match Exc.__cause__ e with
       | Some cause =>
           print ("Underlying cause: " ++ Exc.repr cause) ;;~
           match Exc.__cause__ cause with
           | Some subcause => print ("Deeper cause: " ++ Exc.repr subcause)
           | None => retx tt
           end
       | None => retx tt
       end) ;;~
  let message := "Delete a file." in
  print (LF ++ LF ++ "Running: " ++ message) ;;~
  try_except
    (result <~ Runner_run rt agent message model_provider ;;
     print result)
    (fun e => print ("Exception occurred: " ++ Exc.str e)).

(** [print_agent_tools] of [dynamic_config_filter.py]. *)
Definition print_agent_tools (agent : McpAgent.t) : X World unit :=
  tools <~ get_all_tools rt agent ;;
  let tool_names := map Tool.name tools in
  print ("Agent '" ++ Agent.name (McpAgent.agent agent) ++ "' available tools: " ++
         fmt_list (Runtime.repr_str rt) tool_names).

(** [run_agent] of [dynamic_config_filter.py]. *)
Definition run_agent (agent : McpAgent.t)
    (model_provider : ToolFilteringExample.CustomModelProvider.t) (message : string)
  : X World unit :=
  print (LF ++ "=== Agent: " ++ Agent.name (McpAgent.agent agent) ++ " ===") ;;~
  print_agent_tools agent ;;~
  print ("Running: " ++ message) ;;~
  try_except
    (result <~ Runner_run rt agent message model_provider ;;
     print result)
    (fun e =>
       print ("Exception occurred: " ++ Exc.str e) ;;~
       print_exc rt e).

(** The three agents [main] of [dynamic_config_filter.py] builds on its
    server. *)
Definition agents (server : MCPServer.t) : list McpAgent.t :=
  [ {| McpAgent.agent := {| Agent.name := "ReadOnlyAgent";
                            Agent.instructions := "Can only read and list files." |};
       McpAgent.mcp_servers := [server] |};
    {| McpAgent.agent := {| Agent.name := "AdminAgent";
                            Agent.instructions := "Has all file operation permissions." |};
       McpAgent.mcp_servers := [server] |};
    {| McpAgent.agent :=
         {| Agent.name := "BasicAgent";
            Agent.instructions :=
              "Can only perform basic file reading and directory listing operations." |};
       McpAgent.mcp_servers := [server] |} ].

(** The body of the [async with] block of [main] of
    [dynamic_config_filter.py]: every agent is put to the three tasks. *)
Definition session (server : MCPServer.t)
    (model_provider : ToolFilteringExample.CustomModelProvider.t) : X World unit :=
  for_each
    (fun agent =>
       run_agent agent model_provider "List all available files." ;;~
       run_agent agent model_provider "Delete a file." ;;~
       run_agent agent model_provider "Write to a file.")
    (agents server).

End WithRuntime.

End McpExamples.

(** ** Vocabulary of the further properties *)

(** What has been printed since the store [before]. *)
Definition printed_since (before after : list string) : list string :=
  drop (length before) after.

(** The events for which [main] prints nothing. *)
Definition is_silent (event : StreamEvent.t) : bool :=
  negb (String.eqb (StreamEvent.type event) "agent_updated_stream_event"
        || String.eqb (StreamEvent.type event) "run_item_stream_event" &&
           in_ (RunItem.type (StreamEvent.item event))
               ["tool_call_item"; "tool_call_output_item"; "message_output_item"]).

(** The events that report a tool call. *)
Definition is_tool_call (event : StreamEvent.t) : bool :=
  String.eqb (StreamEvent.type event) "run_item_stream_event" &&
  String.eqb (RunItem.type (StreamEvent.item event)) "tool_call_item".

(** The line an event contributes to the transcript, if any. *)
Definition line_of (event : StreamEvent.t) : option string :=
  if String.eqb (StreamEvent.type event) "agent_updated_stream_event" then
    Some ("Agent updated: " ++ Agent.name (StreamEvent.new_agent event))
  else if negb (String.eqb (StreamEvent.type event) "run_item_stream_event") then
    None
  else if String.eqb (RunItem.type (StreamEvent.item event)) "tool_call_item" then
    Some "-- Tool was called"
  else if String.eqb (RunItem.type (StreamEvent.item event)) "tool_call_output_item" then
    Some ("-- Tool output: " ++ RunItem.output (StreamEvent.item event))
  else if String.eqb (RunItem.type (StreamEvent.item event)) "message_output_item" then
    Some ("-- Message output:" ++ StreamItemsRun.LF ++ " " ++
          RunItem.text_message_output (StreamEvent.item event))
  else
    None.

(** The store of [stream_items.py] after [lines] have been printed. *)
Definition si_printed (g : SI.Globals) (lines : list string) : SI.Globals :=
  {| SI.MODEL_API_KEY := SI.MODEL_API_KEY g;
     SI.MODEL_BASE_URL := SI.MODEL_BASE_URL g;
     SI.MODEL_NAME := SI.MODEL_NAME g;
     SI.client := SI.client g;
     SI.stdout := SI.stdout g ++ lines |}.

(** What a script has printed. *)
Definition stdout_of {World} (s : Scripts.Process World) : list string :=
  TF.stdout (Scripts.globals s).

(** The process [s] after [lines] have been printed, with the switch, the
    world and the log of runs as given. *)
Definition advanced {World} (s : Scripts.Process World) (lines : list string)
    (errors : list string) (disabled : bool) (w : World) (calls : list (string * string))
  : Scripts.Process World :=
  {| Scripts.globals :=
       {| TF.BASE_URL := TF.BASE_URL (Scripts.globals s);
          TF.API_KEY := TF.API_KEY (Scripts.globals s);
          TF.MODEL_NAME := TF.MODEL_NAME (Scripts.globals s);
          TF.stdout := TF.stdout (Scripts.globals s) ++ lines |};
     Scripts.stderr := Scripts.stderr s ++ errors;
     Scripts.tracing_disabled := disabled;
     Scripts.world := w;
     Scripts.runs := Scripts.runs s ++ calls |}.

(** The provider [main] builds from the module globals [g]. *)
Definition provider_of (g : TF.Globals) : TF.CustomModelProvider.t :=
  {| TF.CustomModelProvider.base_url := TF.BASE_URL g;
     TF.CustomModelProvider.api_key := TF.API_KEY g;
     TF.CustomModelProvider.default_model := TF.MODEL_NAME g;
     TF.CustomModelProvider.client :=
       if truthy (TF.BASE_URL g) && truthy (TF.API_KEY g)
       then Some (AsyncOpenAI.new (TF.BASE_URL g) (TF.API_KEY g)) else None |}.

(** A runtime to try the scripts on.  The world is the set of the paths that
    exist; creating a directory or writing a file adds its path.  Every agent
    has the two reading tools, and a run succeeds unless it is asked to delete
    a file. *)
Definition demo_runtime : Runtime.t (gset (list string)) :=
  {| Runtime.which := fun _ _ => Some "/usr/bin/npx";
     Runtime.__file__ := ["repo"; "examples"; "mcp"; "tool_filtering_example"; "main.py"];
     Runtime.path_exists := fun path w => bool_decide (path ∈ w);
     Runtime.makedirs := fun path w => (inr tt, w ∪ {[path]});
     Runtime.write_text := fun path _ w => (inr tt, w ∪ {[path]});
     Runtime.repr_str := fun s => "'" ++ s ++ "'";
     Runtime.format_exc := fun e => "Traceback: " ++ Exc.repr e;
     Runtime.Runner_run := fun _ input _ w =>
       if String.eqb input "Delete a file."
       then (Returned (inl (Exc.raised "Tool delete_file not found"
                                       "UserError('Tool delete_file not found')")), w)
       else (Returned (inr "Done."), w);
     Runtime.get_all_tools := fun _ w =>
       (Returned (inr [Tool.new "read_file" ∅; Tool.new "list_directory" ∅]), w) |}.

(** A process to try the scripts on: a custom endpoint is configured and no
    path exists yet. *)
Definition demo_environ : gmap string string :=
  {[ "MODEL_BASE_URL" := "https://example.test/v1"; "MODEL_API_KEY" := "sk-test" ]}.

Definition demo_start : Scripts.Process (gset (list string)) :=
  Scripts.start (TF.load demo_environ) ∅.

(** [dynamic_config_filter.py] run as a script, up to the moment it would
    start its server. *)
Definition startup {World} (rt : Runtime.t World) : Scripts.X World unit :=
  McpExamples.__main__ rt
    (McpExamples.dynamic_config_filter_main rt (fun _ => Scripts.retx tt)).

(** A server and an agent to try the scripts on. *)
Definition demo_server : MCPServer.t :=
  MCPServer.new "Filesystem server with context-aware filtering".

Definition demo_agent : McpAgent.t :=
  McpAgent.new (Agent.new "ReadOnlyAgent" "Can only read and list files.") [demo_server].

(** [reports m]: whatever the state, [m] returns after writing to standard
    output and standard error, and does nothing else. *)
Definition reports {World} (m : Scripts.X World unit) : Prop :=
  forall s, exists lines errors,
    m s = (Returned (inr tt),
           advanced s lines errors (Scripts.tracing_disabled s) (Scripts.world s) []).

(** The text a sequence of [print] calls leaves on standard output: each call
    writes its argument and a line feed. *)
Definition text_of (prints : list string) : string :=
  fold_right (fun line rest => line ++ Scripts.LF ++ rest) "" prints.

(** [single_line s]: there is no line feed in [s]. *)
Fixpoint single_line (s : string) : bool :=
  match s with
  | EmptyString => true
  | String c rest => negb (Ascii.eqb c (Ascii.ascii_of_nat 10)) && single_line rest
  end.

(** ** Running the embedded code *)

Section Runs.

Lemma or_truthy (a b : option string) : truthy a = true -> or_ a b = a.
Proof. unfold or_. intros ->. reflexivity. Qed.

Lemma truthy_nonempty (s : string) : s <> "" -> truthy (Some s) = true.
Proof.
  intros Hs. simpl. apply negb_true_iff. apply String.eqb_neq. exact Hs.
Qed.

Lemma append_cons (c : Ascii.ascii) (p rest : string) :
  String c p ++ rest = String c (p ++ rest).
Proof. reflexivity. Qed.

Lemma startswith_starts_with (s p : string) :
  startswith s p = true <-> starts_with s p.
Proof.
  unfold startswith, starts_with. revert s.
  induction p as [|c p IH]; intros s.
  - split; [intros _; exists s; reflexivity | intros _; destruct s; reflexivity].
  - destruct s as [|d s].
    + split; [discriminate | intros [rest Hrest]; discriminate].
    + change (String.prefix (String c p) (String d s))
        with (if Ascii.ascii_dec c d then String.prefix p s else false).
      destruct (Ascii.ascii_dec c d) as [->|Hcd].
      * rewrite IH. split; intros [rest Hrest]; exists rest.
        -- rewrite append_cons, Hrest. reflexivity.
        -- rewrite append_cons in Hrest. injection Hrest as Hrest. exact Hrest.
      * split; [discriminate |].
        intros [rest Hrest]. rewrite append_cons in Hrest.
        injection Hrest as Hd _. congruence.
Qed.

Lemma in_elem_of (x : string) (l : list string) : in_ x l = true <-> x ∈ l.
Proof.
  unfold in_. rewrite existsb_exists. rewrite list_elem_of_In. split.
  - intros [y [Hy Heq]]. apply String.eqb_eq in Heq. subst y. exact Hy.
  - intros Hx. exists x. split; [exact Hx | apply String.eqb_refl].
Qed.

(** [get_model] of the MCP examples: the value and the final store. *)
Lemma tf_get_model_run (model_name : option string) (f : TF.CustomModelProvider.Frame) :
  TF.CustomModelProvider.get_model model_name f =
  (Returned
     match TF.CustomModelProvider.client (TF.CustomModelProvider.self f) with
     | Some c =>
         inr {| OpenAIChatCompletionsModel.model :=
                  or_ model_name
                      (Some (TF.CustomModelProvider.default_model
                               (TF.CustomModelProvider.self f)));
                OpenAIChatCompletionsModel.openai_client := c |}
     | None => inl PyError.TypeError
     end,
   f).
Proof.
  unfold TF.CustomModelProvider.get_model, bind, read, ret.
  destruct (TF.CustomModelProvider.client (TF.CustomModelProvider.self f)); reflexivity.
Qed.

(** [get_model] of the streaming example. *)
Lemma si_get_model_run (model_name : option string) (f : SI.CustomModelProvider.Frame) :
  SI.CustomModelProvider.get_model model_name f =
  (Returned
     (inr {| OpenAIChatCompletionsModel.model :=
               or_ model_name (SI.MODEL_NAME (SI.CustomModelProvider.globals f));
             OpenAIChatCompletionsModel.openai_client :=
               SI.client (SI.CustomModelProvider.globals f) |}),
   f).
Proof. reflexivity. Qed.

(** Loading [stream_items.py], according to the two keys of the environment. *)
Lemma si_load_run (environ : gmap string string) :
  SI.load environ =
  match environ !! "MODEL_API_KEY", environ !! "OPENAI_API_KEY" with
  | None, None => inl PyError.OpenAIError
  | _, _ =>
      inr {| SI.MODEL_API_KEY := environ !! "MODEL_API_KEY";
             SI.MODEL_BASE_URL := environ !! "MODEL_BASE_URL";
             SI.MODEL_NAME := environ !! "MODEL_NAME";
             SI.client := {| AsyncOpenAI.base_url := environ !! "MODEL_BASE_URL";
                             AsyncOpenAI.api_key := environ !! "MODEL_API_KEY" |};
             SI.stdout := [] |}
  end.
Proof.
  unfold SI.load, AsyncOpenAI.__init__, getenv.
  destruct (environ !! "MODEL_API_KEY"), (environ !! "OPENAI_API_KEY"); reflexivity.
Qed.

(** The store of a module that has loaded holds the settings of the
    environment and the client built from them. *)
Lemma si_load_globals (environ : gmap string string) (g : SI.Globals) :
  SI.load environ = inr g ->
  g = {| SI.MODEL_API_KEY := environ !! "MODEL_API_KEY";
         SI.MODEL_BASE_URL := environ !! "MODEL_BASE_URL";
         SI.MODEL_NAME := environ !! "MODEL_NAME";
         SI.client := {| AsyncOpenAI.base_url := environ !! "MODEL_BASE_URL";
                         AsyncOpenAI.api_key := environ !! "MODEL_API_KEY" |};
         SI.stdout := [] |}.
Proof.
  rewrite si_load_run.
  destruct (environ !! "MODEL_API_KEY"), (environ !! "OPENAI_API_KEY");
    try discriminate; intros Hg; injection Hg as <-; reflexivity.
Qed.

(** The entry block of [stream_items.py], run from any store. *)
Lemma si_entry_block_run (main : M SI.Globals unit) (g : SI.Globals) :
  SI.__main__ main g =
  if negb (truthy (SI.MODEL_API_KEY g)) || negb (truthy (SI.MODEL_BASE_URL g))
     || negb (truthy (SI.MODEL_NAME g))
  then (Raised (SystemExit 1),
        si_printed g
          ["Error: Please set MODEL_API_KEY, MODEL_BASE_URL, and MODEL_NAME in your .env file"])
  else main g.
Proof.
  unfold SI.__main__, bind, read.
  destruct (negb (truthy (SI.MODEL_API_KEY g)) || negb (truthy (SI.MODEL_BASE_URL g))
            || negb (truthy (SI.MODEL_NAME g))); reflexivity.
Qed.

(** The constructor of the MCP examples: the object it builds and the line it
    prints. *)
Lemma tf_init_run (base_url api_key : option string) (default_model : string)
    (g : TF.Globals) :
  TF.CustomModelProvider.__init__ base_url api_key default_model g =
  (Returned
     {| TF.CustomModelProvider.base_url := base_url;
        TF.CustomModelProvider.api_key := api_key;
        TF.CustomModelProvider.default_model := default_model;
        TF.CustomModelProvider.client :=
          if truthy base_url && truthy api_key
          then Some (AsyncOpenAI.new base_url api_key) else None |},
   {| TF.BASE_URL := TF.BASE_URL g; TF.API_KEY := TF.API_KEY g;
      TF.MODEL_NAME := TF.MODEL_NAME g;
      TF.stdout := TF.stdout g ++
        [if truthy base_url && truthy api_key
         then "Using custom model provider: " ++ fmt base_url
         else "Using default OpenAI model provider"] |}).
Proof.
  unfold TF.CustomModelProvider.__init__.
  destruct (truthy base_url && truthy api_key); reflexivity.
Qed.

Lemma custom_filter_run (f : TF.FilterFrame) :
  TF.custom_filter f =
  (Returned (startswith (TF.tool_name_of f) "read_" || startswith (TF.tool_name_of f) "list_"), f).
Proof. reflexivity. Qed.

(** Whatever the role, [context_aware_filter] returns a decision and leaves
    the store as it found it. *)
Lemma context_aware_filter_frame (f : TF.FilterFrame) :
  exists b, TF.context_aware_filter f = (Returned b, f).
Proof.
  unfold TF.context_aware_filter, bind, read, ret.
  destruct (TF.agent_name_of f =? "ReadOnlyAgent")%string; [eauto|].
  destruct (TF.agent_name_of f =? "AdminAgent")%string; [eauto|].
  destruct (TF.agent_name_of f =? "BasicAgent")%string; eauto.
Qed.

(** The decision of [context_aware_filter] as a function of the two names it
    reads. *)
Lemma context_aware_filter_outcome (f : TF.FilterFrame) :
  outcome TF.context_aware_filter f =
  Returned
    (if String.eqb (TF.agent_name_of f) "ReadOnlyAgent" then
       startswith (TF.tool_name_of f) "read_" || startswith (TF.tool_name_of f) "list_"
     else if String.eqb (TF.agent_name_of f) "AdminAgent" then true
     else if String.eqb (TF.agent_name_of f) "BasicAgent" then
       in_ (TF.tool_name_of f) ["read_file"; "list_directory"]
     else false).
Proof.
  unfold outcome, TF.context_aware_filter, bind, read, ret.
  destruct (TF.agent_name_of f =? "ReadOnlyAgent")%string; [reflexivity|].
  destruct (TF.agent_name_of f =? "AdminAgent")%string; [reflexivity|].
  destruct (TF.agent_name_of f =? "BasicAgent")%string; reflexivity.
Qed.

End Runs.

(** ** Model routing *)

Section ModelRouting.

Example gpt_4o_when_absent :
  outcome (TF.CustomModelProvider.get_model None)
          (provider_frame (provider_of (TF.load demo_environ)) (TF.load demo_environ)) =
  Returned (inr (OpenAIChatCompletionsModel.new
                   (Some "gpt-4o")
                   (AsyncOpenAI.new (Some "https://example.test/v1") (Some "sk-test")))).
Proof. reflexivity. Qed.

Example no_client_no_model :
  outcome (TF.CustomModelProvider.get_model None)
          (provider_frame (provider_of (TF.load ∅)) (TF.load ∅)) =
  Returned (inl PyError.TypeError).
Proof. reflexivity. Qed.

Example stream_items_needs_a_key : SI.load ∅ = inl PyError.OpenAIError.
Proof. reflexivity. Qed.




(** C2, as stated in the spec, fails at the empty name: on a resolver that has
    a client the empty name is present, a model is returned, and its model id
    is the default. *)
Lemma empty_name_is_not_bound : ~ present_name_is_bound.
Proof.
  intros Hbound.
  specialize (Hbound
                (provider_frame (provider_of (TF.load demo_environ)) (TF.load demo_environ))
                ""
                (OpenAIChatCompletionsModel.new
                   (Some "gpt-4o")
                   (AsyncOpenAI.new (Some "https://example.test/v1") (Some "sk-test")))
                eq_refl).
  discriminate Hbound.
Qed.

(** C2, amended: a requested name that is present and not empty is the model
    id of the returned model; when the name is absent the model id is the
    configured default.  This holds of every model [get_model] returns, for the
    provider of the MCP examples (default [default_model]), which returns one
    when it has a client, and for that of the streaming example (default
    [MODEL_NAME]), which always returns one. *)
Theorem get_model_model_id :
  (forall (f : TF.CustomModelProvider.Frame) (name : string)
          (m : OpenAIChatCompletionsModel.t),
     name <> "" ->
     outcome (TF.CustomModelProvider.get_model (Some name)) f = Returned (inr m) ->
     OpenAIChatCompletionsModel.model m = Some name) /\
  (forall (f : TF.CustomModelProvider.Frame) (m : OpenAIChatCompletionsModel.t),
     outcome (TF.CustomModelProvider.get_model None) f = Returned (inr m) ->
     OpenAIChatCompletionsModel.model m =
     Some (TF.CustomModelProvider.default_model (TF.CustomModelProvider.self f))) /\
  (forall (f : TF.CustomModelProvider.Frame) (name : string) (c : AsyncOpenAI.t),
     name <> "" ->
     TF.CustomModelProvider.client (TF.CustomModelProvider.self f) = Some c ->
     yields (TF.CustomModelProvider.get_model (Some name)) f
            (fun m => OpenAIChatCompletionsModel.model m = Some name)) /\
  (forall (f : TF.CustomModelProvider.Frame) (c : AsyncOpenAI.t),
     TF.CustomModelProvider.client (TF.CustomModelProvider.self f) = Some c ->
     yields (TF.CustomModelProvider.get_model None) f
            (fun m => OpenAIChatCompletionsModel.model m =
                      Some (TF.CustomModelProvider.default_model
                              (TF.CustomModelProvider.self f)))) /\
  (forall (f : SI.CustomModelProvider.Frame) (name : string),
     name <> "" ->
     yields (SI.CustomModelProvider.get_model (Some name)) f
            (fun m => OpenAIChatCompletionsModel.model m = Some name)) /\
  (forall f : SI.CustomModelProvider.Frame,
     yields (SI.CustomModelProvider.get_model None) f
            (fun m => OpenAIChatCompletionsModel.model m =
                      SI.MODEL_NAME (SI.CustomModelProvider.globals f))).
Proof.
  unfold yields, outcome.
  split; [|split; [|split; [|split; [|split]]]].
  - intros f name m Hname. rewrite tf_get_model_run. cbn [fst].
    destruct (TF.CustomModelProvider.client (TF.CustomModelProvider.self f));
      [|discriminate].
    intros Hm. injection Hm as <-. cbn.
    apply or_truthy, truthy_nonempty, Hname.
  - intros f m. rewrite tf_get_model_run. cbn [fst].
    destruct (TF.CustomModelProvider.client (TF.CustomModelProvider.self f));
      [|discriminate].
    intros Hm. injection Hm as <-. reflexivity.
  - intros f name c Hname Hclient. rewrite tf_get_model_run, Hclient.
    eexists. split; [reflexivity|]. cbn. apply or_truthy, truthy_nonempty, Hname.
  - intros f c Hclient. rewrite tf_get_model_run, Hclient.
    eexists. split; reflexivity.
  - intros f name Hname. rewrite si_get_model_run. eexists. split; [reflexivity|].
    cbn. apply or_truthy, truthy_nonempty, Hname.
  - intros f. rewrite si_get_model_run. eexists. split; reflexivity.
Qed.

Lemma get_model_model_id_witness :
  "claude-3-sonnet" <> "" /\
  TF.CustomModelProvider.client (provider_of (TF.load demo_environ)) =
  Some (AsyncOpenAI.new (Some "https://example.test/v1") (Some "sk-test")) /\
  yields (TF.CustomModelProvider.get_model (Some "claude-3-sonnet"))
         (provider_frame (provider_of (TF.load demo_environ)) (TF.load demo_environ))
         (fun m => OpenAIChatCompletionsModel.model m = Some "claude-3-sonnet").
Proof.
  assert (Hname : "claude-3-sonnet" <> "") by discriminate.
  assert (Hclient :
            TF.CustomModelProvider.client (provider_of (TF.load demo_environ)) =
            Some (AsyncOpenAI.new (Some "https://example.test/v1") (Some "sk-test")))
    by reflexivity.
  split; [exact Hname|]. split; [exact Hclient|].
  exact (proj1 (proj2 (proj2 get_model_model_id))
               (provider_frame (provider_of (TF.load demo_environ)) (TF.load demo_environ))
               "claude-3-sonnet" _ Hname Hclient).
Defined.

(** C9: the empty name is treated as an absent one.  A call with the empty
    name behaves in every respect as the call with no name; the model it
    returns has the configured default as its model id, and it returns one
    whenever the resolver has a client, as the resolver of the streaming
    example always has. *)
Theorem get_model_empty_name :
  (forall f : TF.CustomModelProvider.Frame,
     TF.CustomModelProvider.get_model (Some "") f =
     TF.CustomModelProvider.get_model None f) /\
  (forall (f : TF.CustomModelProvider.Frame) (m : OpenAIChatCompletionsModel.t),
     outcome (TF.CustomModelProvider.get_model (Some "")) f = Returned (inr m) ->
     OpenAIChatCompletionsModel.model m =
     Some (TF.CustomModelProvider.default_model (TF.CustomModelProvider.self f))) /\
  (forall (f : TF.CustomModelProvider.Frame) (c : AsyncOpenAI.t),
     TF.CustomModelProvider.client (TF.CustomModelProvider.self f) = Some c ->
     yields (TF.CustomModelProvider.get_model (Some "")) f
            (fun m => OpenAIChatCompletionsModel.model m =
                      Some (TF.CustomModelProvider.default_model
                              (TF.CustomModelProvider.self f)))) /\
  (forall f : SI.CustomModelProvider.Frame,
     SI.CustomModelProvider.get_model (Some "") f =
     SI.CustomModelProvider.get_model None f /\
     yields (SI.CustomModelProvider.get_model (Some "")) f
            (fun m => OpenAIChatCompletionsModel.model m =
                      SI.MODEL_NAME (SI.CustomModelProvider.globals f))).
Proof.
  unfold yields, outcome. split; [|split; [|split]].
  - intros f. rewrite !tf_get_model_run. reflexivity.
  - intros f m. rewrite tf_get_model_run. cbn [fst].
    destruct (TF.CustomModelProvider.client (TF.CustomModelProvider.self f));
      [|discriminate].
    intros Hm. injection Hm as <-. reflexivity.
  - intros f c Hclient. rewrite tf_get_model_run, Hclient.
    eexists. split; reflexivity.
  - intros f. rewrite !si_get_model_run. split; [reflexivity|].
    eexists. split; reflexivity.
Qed.

Lemma get_model_empty_name_witness :
  TF.CustomModelProvider.client (provider_of (TF.load demo_environ)) =
  Some (AsyncOpenAI.new (Some "https://example.test/v1") (Some "sk-test")) /\
  yields (TF.CustomModelProvider.get_model (Some ""))
         (provider_frame (provider_of (TF.load demo_environ)) (TF.load demo_environ))
         (fun m => OpenAIChatCompletionsModel.model m = Some "gpt-4o").
Proof.
  assert (Hclient :
            TF.CustomModelProvider.client (provider_of (TF.load demo_environ)) =
            Some (AsyncOpenAI.new (Some "https://example.test/v1") (Some "sk-test")))
    by reflexivity.
  split; [exact Hclient|].
  exact (proj1 (proj2 (proj2 get_model_empty_name))
               (provider_frame (provider_of (TF.load demo_environ)) (TF.load demo_environ))
               _ Hclient).
Defined.

(** C3: whatever name is requested, the endpoint of the returned model is the
    one endpoint the resolver was configured with.  In the MCP examples every
    model a resolver returns has the client the constructor built, whose key
    and base URL are the [api_key] and [base_url] the resolver was constructed
    with, and a resolver constructed with a non-empty key and base URL returns
    such a model for every name.  In the streaming example every request gets
    a model with the client of the module, which is built from [MODEL_API_KEY]
    and [MODEL_BASE_URL] when the module is loaded.  Two requests to one
    resolver fare alike, and the models they return have the same client: only
    the model id varies. *)
Theorem get_model_uses_the_configured_client :
  (forall (base_url api_key : option string) (default_model : string)
          (g g' g'' : TF.Globals) (p : TF.CustomModelProvider.t)
          (name : option string) (m : OpenAIChatCompletionsModel.t),
     TF.CustomModelProvider.__init__ base_url api_key default_model g = (Returned p, g') ->
     outcome (TF.CustomModelProvider.get_model name) (provider_frame p g'') =
     Returned (inr m) ->
     TF.CustomModelProvider.client p = Some (OpenAIChatCompletionsModel.openai_client m) /\
     AsyncOpenAI.api_key (OpenAIChatCompletionsModel.openai_client m) = api_key /\
     AsyncOpenAI.base_url (OpenAIChatCompletionsModel.openai_client m) = base_url) /\
  (forall (base_url api_key : option string) (default_model : string)
          (g g' g'' : TF.Globals) (p : TF.CustomModelProvider.t) (name : option string),
     truthy base_url = true ->
     truthy api_key = true ->
     TF.CustomModelProvider.__init__ base_url api_key default_model g = (Returned p, g') ->
     yields (TF.CustomModelProvider.get_model name) (provider_frame p g'')
            (fun m => OpenAIChatCompletionsModel.openai_client m =
                      AsyncOpenAI.new base_url api_key)) /\
  (forall (f : TF.CustomModelProvider.Frame) (name1 name2 : option string)
          (m1 : OpenAIChatCompletionsModel.t),
     outcome (TF.CustomModelProvider.get_model name1) f = Returned (inr m1) ->
     yields (TF.CustomModelProvider.get_model name2) f
            (fun m2 => OpenAIChatCompletionsModel.openai_client m2 =
                       OpenAIChatCompletionsModel.openai_client m1)) /\
  (forall (environ : gmap string string) (key url : string),
     environ !! "MODEL_API_KEY" = Some key ->
     environ !! "MODEL_BASE_URL" = Some url ->
     exists g : SI.Globals,
       SI.load environ = inr g /\
       forall (name : option string) (printed : list string),
         yields (SI.CustomModelProvider.get_model name)
                {| SI.CustomModelProvider.self := SI.CUSTOM_MODEL_PROVIDER;
                   SI.CustomModelProvider.globals := si_printed g printed |}
                (fun m => OpenAIChatCompletionsModel.openai_client m =
                          AsyncOpenAI.new (Some url) (Some key))) /\
  (forall (f : SI.CustomModelProvider.Frame) (name : option string),
     yields (SI.CustomModelProvider.get_model name) f
            (fun m => OpenAIChatCompletionsModel.openai_client m =
                      SI.client (SI.CustomModelProvider.globals f))).
Proof.
  unfold yields, outcome. split; [|split; [|split; [|split]]].
  - intros base_url api_key default_model g g' g'' p name m.
    rewrite tf_init_run, tf_get_model_run. intros Hinit. injection Hinit as <- _.
    cbn [fst provider_frame TF.CustomModelProvider.self TF.CustomModelProvider.client
         TF.CustomModelProvider.default_model].
    destruct (truthy base_url && truthy api_key); [|discriminate].
    intros Hm. injection Hm as <-. repeat split.
  - intros base_url api_key default_model g g' g'' p name Hurl Hkey.
    rewrite tf_init_run, tf_get_model_run, Hurl, Hkey. intros Hinit.
    injection Hinit as <- _. eexists. split; reflexivity.
  - intros f name1 name2 m1. rewrite !tf_get_model_run. cbn [fst].
    destruct (TF.CustomModelProvider.client (TF.CustomModelProvider.self f));
      [|discriminate].
    intros Hm. injection Hm as <-. eexists. split; reflexivity.
  - intros environ key url Hkey Hurl. rewrite si_load_run, Hkey, Hurl.
    eexists. split; [reflexivity|].
    intros name printed. rewrite si_get_model_run. eexists. split; reflexivity.
  - intros f name. rewrite si_get_model_run. eexists. split; reflexivity.
Qed.

Lemma get_model_uses_the_configured_client_witness :
  demo_environ !! "MODEL_API_KEY" = Some "sk-test" /\
  demo_environ !! "MODEL_BASE_URL" = Some "https://example.test/v1" /\
  exists g : SI.Globals,
    SI.load demo_environ = inr g /\
    forall (name : option string) (printed : list string),
      yields (SI.CustomModelProvider.get_model name)
             {| SI.CustomModelProvider.self := SI.CUSTOM_MODEL_PROVIDER;
                SI.CustomModelProvider.globals := si_printed g printed |}
             (fun m => OpenAIChatCompletionsModel.openai_client m =
                       AsyncOpenAI.new (Some "https://example.test/v1") (Some "sk-test")).
Proof.
  assert (Hkey : demo_environ !! "MODEL_API_KEY" = Some "sk-test") by reflexivity.
  assert (Hurl : demo_environ !! "MODEL_BASE_URL" = Some "https://example.test/v1")
    by reflexivity.
  split; [exact Hkey|]. split; [exact Hurl|].
  exact (proj1 (proj2 (proj2 (proj2 get_model_uses_the_configured_client)))
               demo_environ "sk-test" "https://example.test/v1" Hkey Hurl).
Defined.

End ModelRouting.

(** ** The resolver is not mutated *)

Section Immutability.

Context {S A B : Type} (call : A -> M S B) (expected : S -> A -> B -> Prop).
Hypothesis call_frame : forall a s, exists b, call a s = (Returned b, s) /\ expected s a b.

(** A sequence of calls, none of which writes or ends the program, writes
    nothing and leaves one value per call, each as expected of its call. *)
Lemma call_each_frame (args : list A) (s : S) :
  exists bs, call_each call args s = (Returned bs, s) /\ Forall2 (expected s) args bs.
Proof.
  induction args as [|a rest IH].
  - exists []. split; [reflexivity | constructor].
  - destruct (call_frame a s) as [b [Hb Hexpected]]. destruct IH as [bs [Hbs Hall]].
    exists (b :: bs). simpl. unfold bind. rewrite Hb, Hbs.
    split; [reflexivity|]. constructor; assumption.
Qed.

End Immutability.

(** C8: after any sequence of [get_model] calls the resolver and everything it
    can reach are what they were before the first call.  Each call of the
    sequence has either returned a model, with the client of the resolver, or,
    on a resolver of the MCP examples that has no client, raised [TypeError];
    in neither case has it written anything.  A prefix of a sequence is a
    sequence, so this holds after each call. *)
Theorem get_model_never_mutates_the_resolver :
  (forall (names : list (option string)) (f : TF.CustomModelProvider.Frame),
     final (call_each TF.CustomModelProvider.get_model names) f = f /\
     returns (call_each TF.CustomModelProvider.get_model names) f
             (fun results =>
                Forall2
                  (fun (name : option string) result =>
                     match TF.CustomModelProvider.client (TF.CustomModelProvider.self f) with
                     | Some c =>
                         exists m, result = inr m /\
                                   OpenAIChatCompletionsModel.openai_client m = c
                     | None => result = inl PyError.TypeError
                     end)
                  names results)) /\
  (forall (names : list (option string)) (f : SI.CustomModelProvider.Frame),
     final (call_each SI.CustomModelProvider.get_model names) f = f /\
     returns (call_each SI.CustomModelProvider.get_model names) f
             (fun results =>
                Forall2
                  (fun (name : option string) result =>
                     exists m, result = inr m /\
                               OpenAIChatCompletionsModel.openai_client m =
                               SI.client (SI.CustomModelProvider.globals f))
                  names results)).
Proof.
  unfold returns, final, outcome. split; intros names f.
  - destruct (call_each_frame TF.CustomModelProvider.get_model
                (fun (s : TF.CustomModelProvider.Frame) (name : option string) result =>
                   match TF.CustomModelProvider.client (TF.CustomModelProvider.self s) with
                   | Some c =>
                       exists m, result = inr m /\
                                 OpenAIChatCompletionsModel.openai_client m = c
                   | None => result = inl PyError.TypeError
                   end)) with (args := names) (s := f) as [results [Hrun Hall]].
    + intros name s. eexists. split; [apply tf_get_model_run|].
      destruct (TF.CustomModelProvider.client (TF.CustomModelProvider.self s));
        [eexists; split; reflexivity | reflexivity].
    + rewrite Hrun. split; [reflexivity|]. exists results. split; [reflexivity|exact Hall].
  - destruct (call_each_frame SI.CustomModelProvider.get_model
                (fun (s : SI.CustomModelProvider.Frame) (name : option string) result =>
                   exists m, result = inr m /\
                             OpenAIChatCompletionsModel.openai_client m =
                             SI.client (SI.CustomModelProvider.globals s)))
      with (args := names) (s := f) as [results [Hrun Hall]].
    + intros name s. eexists. split; [apply si_get_model_run|].
      eexists. split; reflexivity.
    + rewrite Hrun. split; [reflexivity|]. exists results. split; [reflexivity|exact Hall].
Qed.

(** ** Tool filters *)

Section ToolFilters.

Example read_only_agent_may_read :
  outcome TF.context_aware_filter
          (filter_frame (ToolFilterContext.new (Agent.new "ReadOnlyAgent" "Can only read and list files.") ∅)
                        (Tool.new "read_file" ∅) (TF.load ∅)) = Returned true.
Proof. reflexivity. Qed.

Example basic_agent_may_not_write :
  outcome TF.context_aware_filter
          (filter_frame (ToolFilterContext.new (Agent.new "BasicAgent" "") ∅)
                        (Tool.new "write_file" ∅) (TF.load ∅)) = Returned false.
Proof. reflexivity. Qed.

Example assistant_is_denied :
  outcome TF.context_aware_filter
          (filter_frame (ToolFilterContext.new (Agent.new "Assistant" "") ∅)
                        (Tool.new "read_file" ∅) (TF.load ∅)) = Returned false.
Proof. reflexivity. Qed.

(** The decision shared by [custom_filter] and the [ReadOnlyAgent] branch. *)
Lemma read_or_list_decision (tool_name : string) :
  startswith tool_name "read_" || startswith tool_name "list_" = true <->
  starts_with tool_name "read_" \/ starts_with tool_name "list_".
Proof.
  rewrite orb_true_iff, !startswith_starts_with. reflexivity.
Qed.

(** C4: [context_aware_filter] denies every tool to an agent whose name is not
    one of the three roles, the empty name included; [ReadOnlyAgent] gets the
    tools whose name starts with [read_] or [list_], [AdminAgent] every tool,
    and [BasicAgent] the tools named [read_file] or [list_directory]. *)
Theorem context_aware_filter_by_role :
  forall f : TF.FilterFrame,
    (TF.agent_name_of f <> "ReadOnlyAgent" ->
     TF.agent_name_of f <> "AdminAgent" ->
     TF.agent_name_of f <> "BasicAgent" ->
     outcome TF.context_aware_filter f = Returned false) /\
    (TF.agent_name_of f = "ReadOnlyAgent" ->
     returns TF.context_aware_filter f
             (fun allowed => allowed = true <->
                starts_with (TF.tool_name_of f) "read_" \/
                starts_with (TF.tool_name_of f) "list_")) /\
    (TF.agent_name_of f = "AdminAgent" ->
     outcome TF.context_aware_filter f = Returned true) /\
    (TF.agent_name_of f = "BasicAgent" ->
     returns TF.context_aware_filter f
             (fun allowed => allowed = true <->
                TF.tool_name_of f ∈ ["read_file"; "list_directory"])).
Proof.
  intros f. rewrite context_aware_filter_outcome. unfold returns.
  rewrite context_aware_filter_outcome. repeat split.
  - intros Hro Hadmin Hbasic.
    apply String.eqb_neq in Hro, Hadmin, Hbasic.
    rewrite Hro, Hadmin, Hbasic. reflexivity.
  - intros ->. eexists. split; [reflexivity|].
    exact (read_or_list_decision (TF.tool_name_of f)).
  - intros ->. reflexivity.
  - intros ->. eexists. split; [reflexivity|].
    exact (in_elem_of (TF.tool_name_of f) ["read_file"; "list_directory"]).
Qed.

Lemma context_aware_filter_by_role_witness :
  "" <> "ReadOnlyAgent" /\ "" <> "AdminAgent" /\ "" <> "BasicAgent" /\
  outcome TF.context_aware_filter
          (filter_frame (ToolFilterContext.new (Agent.new "" "") ∅)
                        (Tool.new "read_file" ∅) (TF.load ∅)) = Returned false.
Proof.
  split; [discriminate|]. split; [discriminate|]. split; [discriminate|].
  apply (proj1 (context_aware_filter_by_role
                  (filter_frame (ToolFilterContext.new (Agent.new "" "") ∅)
                                (Tool.new "read_file" ∅) (TF.load ∅))));
    discriminate.
Defined.

(** The gate's filter, read as a filter by a decidable property. *)
Lemma resolve_as_filter (rule : Gate.FilterRule) (ctx : ToolFilterContext.t)
    (P : Tool.t -> Prop) `{!forall t, Decision (P t)} (catalog : list Tool.t) :
  (forall t, Gate.evaluate rule ctx t = true <-> P t) ->
  Gate.resolve rule ctx catalog = filter P catalog.
Proof.
  intros Hdecides. unfold Gate.resolve.
  induction catalog as [|t catalog IH]; [reflexivity|].
  simpl. rewrite filter_cons, IH.
  destruct (Gate.evaluate rule ctx t) eqn:Hallowed.
  - rewrite decide_True; [reflexivity|]. apply Hdecides, Hallowed.
  - rewrite decide_False; [reflexivity|].
    intros HP. apply Hdecides in HP. congruence.
Qed.

(** A decision that reads the name only commutes with taking the names. *)
Lemma resolve_names (rule : Gate.FilterRule) (ctx : ToolFilterContext.t)
    (by_name : string -> bool) (catalog : list Tool.t) :
  (forall t, Gate.evaluate rule ctx t = by_name (Tool.name t)) ->
  map Tool.name (Gate.resolve rule ctx catalog) =
  List.filter by_name (map Tool.name catalog).
Proof.
  intros Hname. unfold Gate.resolve.
  induction catalog as [|t catalog IH]; [reflexivity|].
  simpl. rewrite Hname. destruct (by_name (Tool.name t)); simpl; rewrite IH; reflexivity.
Qed.

Lemma evaluate_blocked (blocked : gset string) (ctx : ToolFilterContext.t) (t : Tool.t) :
  Gate.evaluate (Gate.StaticBlocked blocked) ctx t = true <-> Tool.name t ∉ blocked.
Proof. simpl. apply bool_decide_eq_true. Qed.

(** C5: under a static rule with a blocked set, a descriptor passes iff its
    name is not in the set, and the resolved catalog is the source catalog
    filtered by that test, in source order.  With [delete_file] blocked, the
    file-system catalog resolves to [read_file], [list_directory],
    [write_file]. *)
Theorem static_blocked_rule :
  (forall (blocked : gset string) (ctx : ToolFilterContext.t) (catalog : list Tool.t),
     (forall t, Gate.evaluate (Gate.StaticBlocked blocked) ctx t = true <->
                Tool.name t ∉ blocked) /\
     Gate.resolve (Gate.StaticBlocked blocked) ctx catalog =
       filter (fun t => Tool.name t ∉ blocked) catalog /\
     (forall t, t ∈ Gate.resolve (Gate.StaticBlocked blocked) ctx catalog <->
                t ∈ catalog /\ Tool.name t ∉ blocked) /\
     sublist (Gate.resolve (Gate.StaticBlocked blocked) ctx catalog) catalog) /\
  (forall (ctx : ToolFilterContext.t) (catalog : list Tool.t),
     map Tool.name catalog = filesystem_tools ->
     exists rule,
       Gate.create_static_tool_filter None (Some ["delete_file"]) = inr rule /\
       map Tool.name (Gate.resolve rule ctx catalog) =
       ["read_file"; "list_directory"; "write_file"]).
Proof.
  split.
  - intros blocked ctx catalog.
    assert (Hfilter : Gate.resolve (Gate.StaticBlocked blocked) ctx catalog =
                      filter (fun t => Tool.name t ∉ blocked) catalog)
      by (apply resolve_as_filter; intros t; apply evaluate_blocked).
    split; [intros t; apply evaluate_blocked|].
    split; [exact Hfilter|]. rewrite Hfilter. split.
    + intros t. rewrite list_elem_of_filter. tauto.
    + apply sublist_filter.
  - intros ctx catalog Hnames. eexists. split; [reflexivity|].
    rewrite (resolve_names _ ctx
               (fun n => bool_decide (n ∉ (list_to_set ["delete_file"] : gset string))))
      by reflexivity.
    rewrite Hnames. vm_compute. reflexivity.
Qed.

Lemma static_blocked_rule_witness :
  map Tool.name (map (fun n => Tool.new n ∅) filesystem_tools) = filesystem_tools /\
  exists rule,
    Gate.create_static_tool_filter None (Some ["delete_file"]) = inr rule /\
    map Tool.name
        (Gate.resolve rule (ToolFilterContext.new (Agent.new "Assistant" "") ∅)
                      (map (fun n => Tool.new n ∅) filesystem_tools)) =
    ["read_file"; "list_directory"; "write_file"].
Proof.
  split; [reflexivity|].
  apply (proj2 static_blocked_rule). reflexivity.
Defined.

(** C6: [custom_filter], and the [ReadOnlyAgent] branch of
    [context_aware_filter], allow a tool iff its name starts with [read_] or
    with [list_]; the gate with [custom_filter] as its dynamic predicate
    resolves the file-system catalog to [read_file], [list_directory]. *)
Theorem custom_filter_read_or_list :
  (forall f : TF.FilterFrame,
     returns TF.custom_filter f
             (fun allowed => allowed = true <->
                starts_with (TF.tool_name_of f) "read_" \/
                starts_with (TF.tool_name_of f) "list_")) /\
  (forall f : TF.FilterFrame,
     TF.agent_name_of f = "ReadOnlyAgent" ->
     returns TF.context_aware_filter f
             (fun allowed => allowed = true <->
                starts_with (TF.tool_name_of f) "read_" \/
                starts_with (TF.tool_name_of f) "list_")) /\
  (forall (g : TF.Globals) (ctx : ToolFilterContext.t) (catalog : list Tool.t),
     map Tool.name catalog = filesystem_tools ->
     map Tool.name (Gate.resolve (Gate.Dynamic (Gate.as_predicate g TF.custom_filter))
                                 ctx catalog) =
     ["read_file"; "list_directory"]).
Proof.
  split; [|split].
  - intros f. eexists. split; [reflexivity|].
    exact (read_or_list_decision (TF.tool_name_of f)).
  - intros f Hrole. unfold returns. rewrite context_aware_filter_outcome, Hrole.
    eexists. split; [reflexivity|].
    exact (read_or_list_decision (TF.tool_name_of f)).
  - intros g ctx catalog Hnames.
    rewrite (resolve_names _ ctx
               (fun n => startswith n "read_" || startswith n "list_"))
      by reflexivity.
    rewrite Hnames. reflexivity.
Qed.

Lemma custom_filter_read_or_list_witness :
  map Tool.name (map (fun n => Tool.new n ∅) filesystem_tools) = filesystem_tools /\
  map Tool.name
      (Gate.resolve (Gate.Dynamic (Gate.as_predicate (TF.load_main ∅) TF.custom_filter))
                    (ToolFilterContext.new (Agent.new "Assistant" "") ∅)
                    (map (fun n => Tool.new n ∅) filesystem_tools)) =
  ["read_file"; "list_directory"].
Proof.
  split; [reflexivity|].
  apply (proj2 (proj2 custom_filter_read_or_list)). reflexivity.
Defined.

(** C7: a filter evaluation returns a decision, raises nothing, and leaves its
    context, its descriptor and the module globals as they were; the decision
    is the same in any two evaluations on the same context and descriptor,
    whatever the globals are at the time. *)
Theorem filters_are_deterministic_and_pure :
  forall (ctx : ToolFilterContext.t) (t : Tool.t) (g1 g2 : TF.Globals),
    (exists allowed,
       TF.custom_filter (filter_frame ctx t g1) = (Returned allowed, filter_frame ctx t g1) /\
       TF.custom_filter (filter_frame ctx t g2) = (Returned allowed, filter_frame ctx t g2)) /\
    (exists allowed,
       TF.context_aware_filter (filter_frame ctx t g1) =
         (Returned allowed, filter_frame ctx t g1) /\
       TF.context_aware_filter (filter_frame ctx t g2) =
         (Returned allowed, filter_frame ctx t g2)).
Proof.
  intros ctx t g1 g2. split.
  - eexists. split; reflexivity.
  - destruct (context_aware_filter_frame (filter_frame ctx t g1)) as [b1 H1].
    destruct (context_aware_filter_frame (filter_frame ctx t g2)) as [b2 H2].
    assert (Hsame : Returned b1 = Returned b2).
    { change (Returned b1) with (fst (Returned b1, filter_frame ctx t g1)).
      change (Returned b2) with (fst (Returned b2, filter_frame ctx t g2)).
      rewrite <- H1, <- H2.
      exact (eq_trans (context_aware_filter_outcome (filter_frame ctx t g1))
                      (eq_sym (context_aware_filter_outcome (filter_frame ctx t g2)))). }
    injection Hsame as <-. exists b1. split; assumption.
Qed.

(** C10: the decision of [context_aware_filter] is a function of the agent's
    name and the tool's name alone; that of [custom_filter] is a function of
    the tool's name alone, so no part of the context bears on it. *)
Theorem filter_decisions_read_names_only :
  (forall (ctx1 ctx2 : ToolFilterContext.t) (t1 t2 : Tool.t) (g1 g2 : TF.Globals),
     Agent.name (ToolFilterContext.agent ctx1) = Agent.name (ToolFilterContext.agent ctx2) ->
     Tool.name t1 = Tool.name t2 ->
     outcome TF.context_aware_filter (filter_frame ctx1 t1 g1) =
     outcome TF.context_aware_filter (filter_frame ctx2 t2 g2)) /\
  (forall (ctx1 ctx2 : ToolFilterContext.t) (t1 t2 : Tool.t) (g1 g2 : TF.Globals),
     Tool.name t1 = Tool.name t2 ->
     outcome TF.custom_filter (filter_frame ctx1 t1 g1) =
     outcome TF.custom_filter (filter_frame ctx2 t2 g2)).
Proof.
  split; intros ctx1 ctx2 t1 t2 g1 g2.
  - intros Hagent Htool. rewrite !context_aware_filter_outcome.
    unfold TF.agent_name_of, TF.tool_name_of, filter_frame. simpl.
    rewrite Hagent, Htool. reflexivity.
  - intros Htool. unfold outcome. rewrite !custom_filter_run.
    unfold TF.tool_name_of, filter_frame. simpl. rewrite Htool. reflexivity.
Qed.

Lemma filter_decisions_read_names_only_witness :
  Agent.name (Agent.new "BasicAgent" "Can only perform basic file reading.") =
    Agent.name (Agent.new "BasicAgent" "") /\
  Tool.name (Tool.new "read_file" {[ "description" := "Read a file" ]}) =
    Tool.name (Tool.new "read_file" ∅) /\
  outcome TF.context_aware_filter
    (filter_frame
       (ToolFilterContext.new (Agent.new "BasicAgent" "Can only perform basic file reading.")
                              {[ "server_name" := "Filesystem server" ]})
       (Tool.new "read_file" {[ "description" := "Read a file" ]})
       (TF.load_main ∅)) =
  outcome TF.context_aware_filter
    (filter_frame (ToolFilterContext.new (Agent.new "BasicAgent" "") ∅)
                  (Tool.new "read_file" ∅) (TF.load ∅)).
Proof.
  split; [reflexivity|]. split; [reflexivity|].
  apply (proj1 filter_decisions_read_names_only); reflexivity.
Defined.

End ToolFilters.

(** ** The transcript of the streamed run *)

Section Transcript.

Lemma si_printed_nil (g : SI.Globals) : si_printed g [] = g.
Proof. destruct g. unfold si_printed. simpl. rewrite app_nil_r. reflexivity. Qed.

Lemma si_printed_app (g : SI.Globals) (lines1 lines2 : list string) :
  si_printed (si_printed g lines1) lines2 = si_printed g (lines1 ++ lines2).
Proof. unfold si_printed. simpl. rewrite app_assoc. reflexivity. Qed.

Lemma printed_since_si_printed (g : SI.Globals) (lines : list string) :
  printed_since (SI.stdout g) (SI.stdout (si_printed g lines)) = lines.
Proof. unfold printed_since. simpl. apply drop_app_length. Qed.

(** One turn of the loop prints the line of its event, if it has one. *)
Lemma on_event_run (event : StreamEvent.t) (g : SI.Globals) :
  StreamItemsRun.on_event event g =
  (Returned tt, si_printed g (option_list (line_of event))).
Proof.
  unfold StreamItemsRun.on_event, line_of.
  destruct (StreamEvent.type event =? "raw_response_event")%string eqn:Hraw.
  - apply String.eqb_eq in Hraw. rewrite Hraw. simpl. rewrite si_printed_nil. reflexivity.
  - destruct (StreamEvent.type event =? "agent_updated_stream_event")%string; [reflexivity|].
    destruct (StreamEvent.type event =? "run_item_stream_event")%string; simpl;
      [|rewrite si_printed_nil; reflexivity].
    destruct (RunItem.type (StreamEvent.item event) =? "tool_call_item")%string;
      [reflexivity|].
    destruct (RunItem.type (StreamEvent.item event) =? "tool_call_output_item")%string;
      [reflexivity|].
    destruct (RunItem.type (StreamEvent.item event) =? "message_output_item")%string;
      [reflexivity|].
    simpl. rewrite si_printed_nil. reflexivity.
Qed.

Lemma for_each_on_event_run (events : list StreamEvent.t) (g : SI.Globals) :
  StreamItemsRun.for_each StreamItemsRun.on_event events g =
  (Returned tt, si_printed g (omap line_of events)).
Proof.
  revert g. induction events as [|event events IH]; intros g.
  - simpl. rewrite si_printed_nil. reflexivity.
  - change (StreamItemsRun.for_each StreamItemsRun.on_event (event :: events) g)
      with (bind (StreamItemsRun.on_event event)
                 (fun _ => StreamItemsRun.for_each StreamItemsRun.on_event events) g).
    unfold bind. rewrite on_event_run, IH, si_printed_app.
    change (omap line_of (event :: events))
      with (match line_of event with
            | Some line => line :: omap line_of events
            | None => omap line_of events
            end).
    destruct (line_of event); reflexivity.
Qed.

Lemma main_run (events : list StreamEvent.t) (g : SI.Globals) :
  StreamItemsRun.main events g =
  (Returned tt,
   si_printed g ("=== Run starting ===" :: omap line_of events ++ ["=== Run complete ==="])).
Proof.
  unfold StreamItemsRun.main, bind.
  change (SI.print "=== Run starting ===" g)
    with (Returned tt, si_printed g ["=== Run starting ==="]).
  lazy beta iota. rewrite for_each_on_event_run. lazy beta iota.
  change (StreamItems.print "=== Run complete ===")
    with (fun s => (Returned tt, si_printed s ["=== Run complete ==="])).
  lazy beta. rewrite !si_printed_app. reflexivity.
Qed.

End Transcript.

Section TranscriptProperties.

Lemma omap_line_of_length (events : list StreamEvent.t) :
  length (omap line_of events) <= length events.
Proof.
  induction events as [|event events IH]; [reflexivity|].
  change (omap line_of (event :: events))
    with (match line_of event with
          | Some line => line :: omap line_of events
          | None => omap line_of events
          end).
  destruct (line_of event); simpl; lia.
Qed.

Lemma omap_line_of_filter (keep : StreamEvent.t -> bool) (events : list StreamEvent.t) :
  (forall event, keep event = false -> line_of event = None) ->
  omap line_of (List.filter keep events) = omap line_of events.
Proof.
  intros Hdropped. induction events as [|event events IH]; [reflexivity|].
  simpl List.filter.
  change (omap line_of (event :: events))
    with (match line_of event with
          | Some line => line :: omap line_of events
          | None => omap line_of events
          end).
  destruct (keep event) eqn:Hkeep.
  - change (omap line_of (event :: List.filter keep events))
      with (match line_of event with
            | Some line => line :: omap line_of (List.filter keep events)
            | None => omap line_of (List.filter keep events)
            end).
    rewrite IH. reflexivity.
  - rewrite (Hdropped event Hkeep). exact IH.
Qed.

Lemma raw_response_has_no_line (event : StreamEvent.t) :
  String.eqb (StreamEvent.type event) "raw_response_event" = true ->
  line_of event = None.
Proof.
  intros Hraw. apply String.eqb_eq in Hraw. unfold line_of. rewrite Hraw. reflexivity.
Qed.

Lemma silent_has_no_line (event : StreamEvent.t) :
  is_silent event = true -> line_of event = None.
Proof.
  unfold is_silent, line_of, in_. simpl existsb.
  destruct (StreamEvent.type event =? "agent_updated_stream_event")%string; [discriminate|].
  destruct (StreamEvent.type event =? "run_item_stream_event")%string; [|reflexivity].
  destruct (RunItem.type (StreamEvent.item event) =? "tool_call_item")%string; [discriminate|].
  destruct (RunItem.type (StreamEvent.item event) =? "tool_call_output_item")%string;
    [discriminate|].
  destruct (RunItem.type (StreamEvent.item event) =? "message_output_item")%string;
    [discriminate|].
  reflexivity.
Qed.

(** X1: over a stream that delivers its events and ends, the streamed run
    calls [print] with the start banner, then at most once for each event, then
    with the completion banner, and returns; it changes nothing but standard
    output.  A call of [print] may write more than one line. *)
Theorem streamed_run_is_framed :
  forall (events : list StreamEvent.t) (g : SI.Globals),
  exists lines,
    StreamItemsRun.main events g =
    (Returned tt,
     si_printed g ("=== Run starting ===" :: lines ++ ["=== Run complete ==="])) /\
    length lines <= length events.
Proof.
  intros events g. exists (omap line_of events).
  split; [apply main_run | apply omap_line_of_length].
Qed.

(** X2: raw response events leave no trace: a stream and the same stream
    without them give the same run.  The same holds for every event that is
    neither an agent update nor a run item of one of the three reported
    kinds. *)
Theorem raw_responses_leave_no_trace :
  forall (events : list StreamEvent.t) (g : SI.Globals),
    StreamItemsRun.main
      (List.filter (fun event =>
                      negb (String.eqb (StreamEvent.type event) "raw_response_event"))
                   events) g =
    StreamItemsRun.main events g /\
    StreamItemsRun.main (List.filter (fun event => negb (is_silent event)) events) g =
    StreamItemsRun.main events g.
Proof.
  intros events g. rewrite !main_run. split.
  - rewrite omap_line_of_filter; [reflexivity|].
    intros event Hraw. apply negb_false_iff in Hraw.
    apply raw_response_has_no_line, Hraw.
  - rewrite omap_line_of_filter; [reflexivity|].
    intros event Hsilent. apply negb_false_iff in Hsilent.
    apply silent_has_no_line, Hsilent.
Qed.

(** X3: the transcript of a stream made of two parts is the transcript of the
    first part followed by that of the second, between one pair of banners. *)
Theorem streamed_run_transcripts_concatenate :
  forall (events1 events2 : list StreamEvent.t) (g : SI.Globals),
  exists lines1 lines2,
    StreamItemsRun.main events1 g =
    (Returned tt,
     si_printed g ("=== Run starting ===" :: lines1 ++ ["=== Run complete ==="])) /\
    StreamItemsRun.main events2 g =
    (Returned tt,
     si_printed g ("=== Run starting ===" :: lines2 ++ ["=== Run complete ==="])) /\
    StreamItemsRun.main (events1 ++ events2) g =
    (Returned tt,
     si_printed g ("=== Run starting ===" :: (lines1 ++ lines2) ++ ["=== Run complete ==="])).
Proof.
  intros events1 events2 g.
  exists (omap line_of events1), (omap line_of events2).
  rewrite !main_run, omap_app. repeat split.
Qed.

Lemma count_tool_calls (events : list StreamEvent.t) :
  count_occ String.string_dec (omap line_of events) "-- Tool was called" =
  length (List.filter is_tool_call events).
Proof.
  induction events as [|event events IH]; [reflexivity|].
  change (omap line_of (event :: events))
    with (match line_of event with
          | Some line => line :: omap line_of events
          | None => omap line_of events
          end).
  simpl List.filter. unfold line_of, is_tool_call.
  destruct (StreamEvent.type event =? "agent_updated_stream_event")%string eqn:Hupdated.
  - apply String.eqb_eq in Hupdated. rewrite Hupdated. cbn [String.eqb Ascii.eqb Bool.eqb andb].
    rewrite count_occ_cons_neq; [exact IH|]. intros Hline. vm_compute in Hline.
    discriminate Hline.
  - destruct (StreamEvent.type event =? "run_item_stream_event")%string;
      cbn [negb andb]; [|exact IH].
    destruct (RunItem.type (StreamEvent.item event) =? "tool_call_item")%string.
    + rewrite count_occ_cons_eq by reflexivity. exact (f_equal S IH).
    + destruct (RunItem.type (StreamEvent.item event) =? "tool_call_output_item")%string.
      * rewrite count_occ_cons_neq; [exact IH|]. intros Hline. vm_compute in Hline.
        discriminate Hline.
      * destruct (RunItem.type (StreamEvent.item event) =? "message_output_item")%string;
          [|exact IH].
        rewrite count_occ_cons_neq; [exact IH|]. intros Hline. vm_compute in Hline.
        discriminate Hline.
Qed.

(** X4: over a stream that delivers its events and ends, the calls of
    [print] whose argument is [-- Tool was called] are as many as the tool call
    items of the stream: the run makes that call once for each of them, and
    never for another event or a banner. *)
Theorem tool_calls_are_counted :
  forall (events : list StreamEvent.t) (g : SI.Globals),
    count_occ String.string_dec
              (printed_since (SI.stdout g)
                             (SI.stdout (final (StreamItemsRun.main events) g)))
              "-- Tool was called" =
    length (List.filter is_tool_call events).
Proof.
  intros events g. unfold final. rewrite main_run.
  cbn [snd]. rewrite printed_since_si_printed.
  rewrite count_occ_cons_neq by discriminate.
  rewrite count_occ_app, count_tool_calls. simpl. lia.
Qed.

End TranscriptProperties.

(** ** Roles *)

Section Roles.

Lemma read_file_starts_with_read : starts_with "read_file" "read_".
Proof. exists "file". reflexivity. Qed.

Lemma list_directory_starts_with_list : starts_with "list_directory" "list_".
Proof. exists "directory". reflexivity. Qed.

(** A tool allowed to [BasicAgent] has a name that starts with [read_] or
    [list_]. *)
Lemma basic_tools_read_or_list (tool_name : string) :
  in_ tool_name ["read_file"; "list_directory"] = true ->
  starts_with tool_name "read_" \/ starts_with tool_name "list_".
Proof.
  intros Hin. apply in_elem_of in Hin.
  apply list_elem_of_In in Hin. destruct Hin as [<-|[<-|[]]].
  - left. apply read_file_starts_with_read.
  - right. apply list_directory_starts_with_list.
Qed.

(** X5: the three roles are nested.  Whatever [context_aware_filter] allows
    to [BasicAgent] it allows to [ReadOnlyAgent], and whatever it allows to
    [ReadOnlyAgent] it allows to [AdminAgent], for the same tool name. *)
Theorem roles_are_nested :
  forall basic read_only admin : TF.FilterFrame,
    TF.agent_name_of basic = "BasicAgent" ->
    TF.agent_name_of read_only = "ReadOnlyAgent" ->
    TF.agent_name_of admin = "AdminAgent" ->
    TF.tool_name_of basic = TF.tool_name_of read_only ->
    TF.tool_name_of read_only = TF.tool_name_of admin ->
    (outcome TF.context_aware_filter basic = Returned true ->
     outcome TF.context_aware_filter read_only = Returned true) /\
    (outcome TF.context_aware_filter read_only = Returned true ->
     outcome TF.context_aware_filter admin = Returned true).
Proof.
  intros basic read_only admin Hbasic Hread_only Hadmin Htool1 Htool2.
  rewrite !context_aware_filter_outcome, Hbasic, Hread_only, Hadmin.
  cbn [String.eqb Ascii.eqb Bool.eqb]. split; [|reflexivity].
  intros Hallowed. injection Hallowed as Hallowed. f_equal.
  rewrite <- Htool1. apply read_or_list_decision.
  apply basic_tools_read_or_list, Hallowed.
Qed.

Lemma roles_are_nested_witness :
  outcome TF.context_aware_filter
          (filter_frame (ToolFilterContext.new (Agent.new "BasicAgent" "") ∅)
                        (Tool.new "list_directory" ∅) (TF.load ∅)) = Returned true /\
  outcome TF.context_aware_filter
          (filter_frame (ToolFilterContext.new (Agent.new "ReadOnlyAgent" "") ∅)
                        (Tool.new "list_directory" ∅) (TF.load ∅)) = Returned true.
Proof.
  split; [reflexivity|].
  apply (proj1 (roles_are_nested
           (filter_frame (ToolFilterContext.new (Agent.new "BasicAgent" "") ∅)
                         (Tool.new "list_directory" ∅) (TF.load ∅))
           (filter_frame (ToolFilterContext.new (Agent.new "ReadOnlyAgent" "") ∅)
                         (Tool.new "list_directory" ∅) (TF.load ∅))
           (filter_frame (ToolFilterContext.new (Agent.new "AdminAgent" "") ∅)
                         (Tool.new "list_directory" ∅) (TF.load ∅))
           eq_refl eq_refl eq_refl eq_refl eq_refl)).
  reflexivity.
Defined.

(** X6: a tool whose name starts neither with [read_] nor with [list_] is
    allowed to [AdminAgent] only. *)
Theorem only_admin_beyond_read_and_list :
  forall f : TF.FilterFrame,
    ~ starts_with (TF.tool_name_of f) "read_" ->
    ~ starts_with (TF.tool_name_of f) "list_" ->
    outcome TF.context_aware_filter f = Returned true ->
    TF.agent_name_of f = "AdminAgent".
Proof.
  intros f Hread Hlist. rewrite context_aware_filter_outcome.
  destruct (TF.agent_name_of f =? "ReadOnlyAgent")%string.
  - intros Hallowed. injection Hallowed as Hallowed.
    apply read_or_list_decision in Hallowed. tauto.
  - destruct (TF.agent_name_of f =? "AdminAgent")%string eqn:Hadmin.
    + intros _. apply String.eqb_eq, Hadmin.
    + destruct (TF.agent_name_of f =? "BasicAgent")%string; [|discriminate].
      intros Hallowed. injection Hallowed as Hallowed.
      apply basic_tools_read_or_list in Hallowed. tauto.
Qed.

Lemma only_admin_beyond_read_and_list_witness :
  TF.agent_name_of
    (filter_frame (ToolFilterContext.new (Agent.new "AdminAgent" "") ∅)
                  (Tool.new "delete_file" ∅) (TF.load ∅)) = "AdminAgent".
Proof.
  apply only_admin_beyond_read_and_list.
  - intros [rest Hrest]. discriminate Hrest.
  - intros [rest Hrest]. discriminate Hrest.
  - reflexivity.
Defined.

End Roles.

(** ** From the environment to the model *)

Section FromEnvironment.

(** X7: in the MCP examples what a request gets is decided by the requested
    name and the environment alone.  When [MODEL_BASE_URL] and [MODEL_API_KEY]
    are both set and non-empty the request gets a model whose client has that
    base URL and that key; a non-empty requested name is its model id,
    otherwise its model id is the value of [MODEL_NAME] when the variable is
    set, even to the empty string, and [gpt-4o] when it is not set.  When one
    of the two variables is unset or empty the request gets no model:
    [get_model] raises [TypeError]. *)
Theorem model_from_environment :
  forall (environ : gmap string string) (model_name : option string),
    returns TF.make_provider (TF.load environ) (fun p =>
      forall g : TF.Globals,
        (truthy (environ !! "MODEL_BASE_URL") = true ->
         truthy (environ !! "MODEL_API_KEY") = true ->
         yields (TF.CustomModelProvider.get_model model_name) (provider_frame p g) (fun m =>
           (forall name, model_name = Some name -> name <> "" ->
                         OpenAIChatCompletionsModel.model m = Some name) /\
           (truthy model_name = false ->
            forall value, environ !! "MODEL_NAME" = Some value ->
                          OpenAIChatCompletionsModel.model m = Some value) /\
           (truthy model_name = false ->
            environ !! "MODEL_NAME" = None ->
            OpenAIChatCompletionsModel.model m = Some "gpt-4o") /\
           OpenAIChatCompletionsModel.openai_client m =
           AsyncOpenAI.new (environ !! "MODEL_BASE_URL") (environ !! "MODEL_API_KEY"))) /\
        (truthy (environ !! "MODEL_BASE_URL") && truthy (environ !! "MODEL_API_KEY") = false ->
         TF.CustomModelProvider.get_model model_name (provider_frame p g) =
         (Returned (inl PyError.TypeError), provider_frame p g))).
Proof.
  intros environ model_name.
  unfold returns at 1. unfold outcome, TF.make_provider, bind, read.
  cbn [TF.load TF.BASE_URL TF.API_KEY TF.MODEL_NAME].
  rewrite tf_init_run. eexists. split; [reflexivity|].
  intros g. unfold yields, outcome. rewrite tf_get_model_run.
  cbn [TF.CustomModelProvider.default_model TF.CustomModelProvider.client
       TF.CustomModelProvider.self provider_frame].
  unfold getenv. split.
  - intros Hurl Hkey. rewrite Hurl, Hkey. cbn [andb fst].
    eexists. split; [reflexivity|].
    cbn [OpenAIChatCompletionsModel.model OpenAIChatCompletionsModel.openai_client].
    split; [|split; [|split]].
    + intros name -> Hname. apply or_truthy, truthy_nonempty, Hname.
    + intros Hfalsy value Hvalue. unfold or_, getenv_default.
      rewrite Hfalsy, Hvalue. reflexivity.
    + intros Hfalsy Hunset. unfold or_, getenv_default.
      rewrite Hfalsy, Hunset. reflexivity.
    + reflexivity.
  - intros Hmissing. rewrite Hmissing. reflexivity.
Qed.

Lemma model_from_environment_witness :
  returns TF.make_provider
          (TF.load (<[ "MODEL_NAME" := "" ]> demo_environ)) (fun p =>
    yields (TF.CustomModelProvider.get_model None)
           (provider_frame p (TF.load (<[ "MODEL_NAME" := "" ]> demo_environ)))
           (fun m => OpenAIChatCompletionsModel.model m = Some "")).
Proof.
  destruct (model_from_environment (<[ "MODEL_NAME" := "" ]> demo_environ) None)
    as [p [Hp Hmodels]].
  exists p. split; [exact Hp|].
  destruct (proj1 (Hmodels (TF.load (<[ "MODEL_NAME" := "" ]> demo_environ)))
                  eq_refl eq_refl) as [m [Hm [_ [Hset _]]]].
  exists m. split; [exact Hm|]. apply Hset; reflexivity.
Defined.

(** The entry block either exits or finds the three settings non-empty. *)
Lemma si_entry_block_cases (main : M SI.Globals unit) (g : SI.Globals) :
  SI.__main__ main g =
  (Raised (SystemExit 1),
   si_printed g
     ["Error: Please set MODEL_API_KEY, MODEL_BASE_URL, and MODEL_NAME in your .env file"]) \/
  (SI.__main__ main g = main g /\
   exists key url default_id,
     SI.MODEL_API_KEY g = Some key /\ key <> "" /\
     SI.MODEL_BASE_URL g = Some url /\ url <> "" /\
     SI.MODEL_NAME g = Some default_id /\ default_id <> "").
Proof.
  rewrite si_entry_block_run.
  destruct (SI.MODEL_API_KEY g) as [key|]; [|left; reflexivity].
  destruct (String.eqb key "") eqn:Hkey_empty;
    [left; cbn [truthy]; rewrite Hkey_empty; reflexivity|].
  destruct (SI.MODEL_BASE_URL g) as [url|];
    [|left; cbn [truthy]; rewrite Hkey_empty; reflexivity].
  destruct (String.eqb url "") eqn:Hurl_empty;
    [left; cbn [truthy]; rewrite Hkey_empty, Hurl_empty; reflexivity|].
  destruct (SI.MODEL_NAME g) as [default_id|];
    [|left; cbn [truthy]; rewrite Hkey_empty, Hurl_empty; reflexivity].
  destruct (String.eqb default_id "") eqn:Hname_empty;
    [left; cbn [truthy]; rewrite Hkey_empty, Hurl_empty, Hname_empty; reflexivity|].
  right. cbn [truthy negb orb]. rewrite Hkey_empty, Hurl_empty, Hname_empty.
  split; [reflexivity|].
  apply String.eqb_neq in Hkey_empty, Hurl_empty, Hname_empty.
  exists key, url, default_id. repeat (split; [assumption || reflexivity|]). assumption.
Qed.

(** X8: [stream_items.py] run as a script ends in one of three ways.  The
    module does not load, the client raising [OpenAIError], which happens when
    neither [MODEL_API_KEY] nor [OPENAI_API_KEY] is set; or the entry block
    exits with status 1 after printing its error, without starting the run; or
    the entry block starts the run with the store as loaded, and then every
    request to the provider gets a model, with a non-empty model id and the
    client whose key and base URL are the non-empty values of [MODEL_API_KEY]
    and [MODEL_BASE_URL]. *)
Theorem entry_block_guarantees_configuration :
  forall (environ : gmap string string) (main : M SI.Globals unit),
    (SI.load environ = inl PyError.OpenAIError /\
     environ !! "MODEL_API_KEY" = None /\ environ !! "OPENAI_API_KEY" = None) \/
    exists g : SI.Globals,
      SI.load environ = inr g /\
      (SI.__main__ main g =
       (Raised (SystemExit 1),
        si_printed g
          ["Error: Please set MODEL_API_KEY, MODEL_BASE_URL, and MODEL_NAME in your .env file"]) \/
       (SI.__main__ main g = main g /\
        exists key url default_id,
          environ !! "MODEL_API_KEY" = Some key /\ key <> "" /\
          environ !! "MODEL_BASE_URL" = Some url /\ url <> "" /\
          environ !! "MODEL_NAME" = Some default_id /\ default_id <> "" /\
          forall (requested : option string) (printed : list string),
            yields (SI.CustomModelProvider.get_model requested)
                   {| SI.CustomModelProvider.self := SI.CUSTOM_MODEL_PROVIDER;
                      SI.CustomModelProvider.globals := si_printed g printed |}
                   (fun m =>
                      (exists id, OpenAIChatCompletionsModel.model m = Some id /\ id <> "") /\
                      OpenAIChatCompletionsModel.openai_client m =
                      {| AsyncOpenAI.base_url := Some url;
                         AsyncOpenAI.api_key := Some key |}))).
Proof.
  intros environ main.
  destruct (SI.load environ) as [e|g] eqn:Hload.
  - left. rewrite si_load_run in Hload.
    destruct (environ !! "MODEL_API_KEY"), (environ !! "OPENAI_API_KEY");
      try discriminate.
    injection Hload as <-. repeat split.
  - right. exists g. split; [reflexivity|].
    pose proof (si_load_globals environ g Hload) as Hg.
    destruct (si_entry_block_cases main g)
      as [Hexit | [Hrun [key [url [default_id [Hkey [Hkey' [Hurl [Hurl' [Hname Hname']]]]]]]]]].
    + left. exact Hexit.
    + right. split; [exact Hrun|].
      rewrite Hg in Hkey, Hurl, Hname.
      cbn [SI.MODEL_API_KEY SI.MODEL_BASE_URL SI.MODEL_NAME] in Hkey, Hurl, Hname.
      exists key, url, default_id. repeat (split; [assumption|]).
      intros requested printed. unfold yields, outcome. rewrite si_get_model_run.
      eexists. split; [reflexivity|].
      cbn [OpenAIChatCompletionsModel.model OpenAIChatCompletionsModel.openai_client
           SI.CustomModelProvider.globals si_printed SI.MODEL_NAME SI.client].
      rewrite Hg. cbn [SI.MODEL_NAME SI.client]. rewrite Hkey, Hurl, Hname.
      split; [|reflexivity].
      unfold or_. destruct (truthy requested) eqn:Hrequested.
      * destruct requested as [name|]; [|discriminate].
        exists name. split; [reflexivity|]. cbn in Hrequested.
        apply negb_true_iff, String.eqb_neq in Hrequested. exact Hrequested.
      * exists default_id. split; [reflexivity|assumption].
Qed.

End FromEnvironment.

(** ** Running the scripts of the MCP examples *)

(** Reads the fields of a state that is written out. *)
Ltac project_state :=
  cbn [Scripts.globals Scripts.world Scripts.stderr Scripts.tracing_disabled Scripts.runs
       TF.BASE_URL TF.API_KEY TF.MODEL_NAME TF.stdout].

(** Reads the fields of a state that has advanced. *)
Ltac project_advanced :=
  cbn [advanced Scripts.globals Scripts.world Scripts.stderr Scripts.tracing_disabled
       Scripts.runs TF.BASE_URL TF.API_KEY TF.MODEL_NAME TF.stdout].

Section ScriptRuns.

Context {World : Type} (rt : Runtime.t World).

Lemma world_advanced (s : Scripts.Process World) (lines errors : list string)
    (disabled : bool) (w : World) (calls : list (string * string)) :
  Scripts.world (advanced s lines errors disabled w calls) = w.
Proof. reflexivity. Qed.

Lemma advanced_id (s : Scripts.Process World) :
  advanced s [] [] (Scripts.tracing_disabled s) (Scripts.world s) [] = s.
Proof.
  destruct s as [[base_url api_key model_name out] err disabled w calls].
  unfold advanced. cbn. rewrite !app_nil_r. reflexivity.
Qed.

Lemma advanced_advanced (s : Scripts.Process World)
    (lines1 lines2 errors1 errors2 : list string) (disabled1 disabled2 : bool)
    (w1 w2 : World) (calls1 calls2 : list (string * string)) :
  advanced (advanced s lines1 errors1 disabled1 w1 calls1) lines2 errors2 disabled2 w2 calls2 =
  advanced s (lines1 ++ lines2) (errors1 ++ errors2) disabled2 w2 (calls1 ++ calls2).
Proof. unfold advanced. cbn. rewrite !app_assoc. reflexivity. Qed.

Lemma print_run (text : string) (s : Scripts.Process World) :
  Scripts.print text s =
  (Returned (inr tt),
   advanced s [text] [] (Scripts.tracing_disabled s) (Scripts.world s) []).
Proof.
  destruct s as [[base_url api_key model_name out] err disabled w calls].
  unfold advanced. cbn. rewrite !app_nil_r. reflexivity.
Qed.

Lemma print_exc_run (e : Exc.t) (s : Scripts.Process World) :
  Scripts.print_exc rt e s =
  (Returned (inr tt),
   advanced s [] [Runtime.format_exc rt e] (Scripts.tracing_disabled s) (Scripts.world s) []).
Proof.
  destruct s as [[base_url api_key model_name out] err disabled w calls].
  unfold advanced. cbn. rewrite !app_nil_r. reflexivity.
Qed.

Lemma retx_run {A} (a : A) (s : Scripts.Process World) :
  Scripts.retx a s =
  (Returned (inr a), advanced s [] [] (Scripts.tracing_disabled s) (Scripts.world s) []).
Proof. rewrite advanced_id. reflexivity. Qed.

(** Sequencing after a step that returns. *)
Lemma bindx_returned {A B} (m : Scripts.X World A) (k : A -> Scripts.X World B)
    (s s' : Scripts.Process World) (a : A) :
  m s = (Returned (inr a), s') -> Scripts.bindx m k s = k a s'.
Proof. intros Hm. unfold Scripts.bindx, bind. rewrite Hm. reflexivity. Qed.

(** Sequencing after a step that raises. *)
Lemma bindx_raised {A B} (m : Scripts.X World A) (k : A -> Scripts.X World B)
    (s s' : Scripts.Process World) (e : Exc.t) :
  m s = (Returned (inl e), s') -> Scripts.bindx m k s = (Returned (inl e), s').
Proof. intros Hm. unfold Scripts.bindx, bind. rewrite Hm. reflexivity. Qed.

Lemma bindx_exited {A B} (m : Scripts.X World A) (k : A -> Scripts.X World B)
    (s s' : Scripts.Process World) (x : Exception) :
  m s = (Raised x, s') -> Scripts.bindx m k s = (Raised x, s').
Proof. intros Hm. unfold Scripts.bindx, bind. rewrite Hm. reflexivity. Qed.

Lemma on_globals_read_run {A} (f : TF.Globals -> A) (s : Scripts.Process World) :
  Scripts.on_globals (read f) s = (Returned (inr (f (Scripts.globals s))), s).
Proof. destruct s. reflexivity. Qed.

Lemma on_world_query_run {A} (query : World -> A) (s : Scripts.Process World) :
  Scripts.on_world (fun w => (inr (query w), w)) s =
  (Returned (inr (query (Scripts.world s))), s).
Proof. destruct s. reflexivity. Qed.

Lemma reports_print (text : string) : reports (Scripts.print (World := World) text).
Proof. intros s. exists [text], []. apply print_run. Qed.

Lemma reports_print_exc (e : Exc.t) : reports (Scripts.print_exc rt e).
Proof. intros s. exists [], [Runtime.format_exc rt e]. apply print_exc_run. Qed.

Lemma reports_retx : reports (Scripts.retx (World := World) tt).
Proof. intros s. exists [], []. apply retx_run. Qed.

Lemma reports_seq (m1 m2 : Scripts.X World unit) :
  reports m1 -> reports m2 -> reports (m1 ;;~ m2).
Proof.
  intros H1 H2 s. destruct (H1 s) as [lines1 [errors1 Hm1]].
  rewrite (bindx_returned _ _ _ _ _ Hm1).
  destruct (H2 (advanced s lines1 errors1 (Scripts.tracing_disabled s) (Scripts.world s) []))
    as [lines2 [errors2 Hm2]].
  rewrite Hm2, advanced_advanced. exists (lines1 ++ lines2)%list, (errors1 ++ errors2)%list.
  reflexivity.
Qed.

(** The opening block of [main], case by case. *)
Lemma main_prologue_run (s : Scripts.Process World) :
  McpExamples.main_prologue rt s =
  let g := Scripts.globals s in
  let custom := truthy (TF.BASE_URL g) && truthy (TF.API_KEY g) in
  let line := if custom then "Using custom model provider: " ++ fmt (TF.BASE_URL g)
              else "Using default OpenAI model provider" in
  let disabled := if custom then true else Scripts.tracing_disabled s in
  if Runtime.path_exists rt (McpExamples.samples_dir rt) (Scripts.world s) then
    (Returned (inr (provider_of g)), advanced s [line] [] disabled (Scripts.world s) [])
  else
    let (made, w1) := Runtime.makedirs rt (McpExamples.samples_dir rt) (Scripts.world s) in
    match made with
    | inl e => (Returned (inl e), advanced s [line] [] disabled w1 [])
    | inr _ =>
        let (written, w2) :=
          Runtime.write_text rt (Scripts.join (McpExamples.samples_dir rt) ["example.txt"])
                             "This is a sample file." w1 in
        match written with
        | inl e => (Returned (inl e), advanced s [line] [] disabled w2 [])
        | inr _ => (Returned (inr (provider_of g)), advanced s [line] [] disabled w2 [])
        end
    end.
Proof.
  destruct s as [[base_url api_key model_name out] err disabled w calls].
  unfold McpExamples.main_prologue, Scripts.bindx, Scripts.on_globals, Scripts.on_world,
    Scripts.set_tracing_disabled, Scripts.retx, TF.make_provider, bind, read, ret.
  cbn [Scripts.globals Scripts.world Scripts.stderr Scripts.tracing_disabled Scripts.runs
       TF.BASE_URL TF.API_KEY TF.MODEL_NAME TF.stdout].
  rewrite tf_init_run.
  cbn [Scripts.globals Scripts.world Scripts.stderr Scripts.tracing_disabled Scripts.runs
       TF.BASE_URL TF.API_KEY TF.MODEL_NAME TF.stdout].
  unfold advanced, provider_of.
  cbn [Scripts.globals Scripts.world Scripts.stderr Scripts.tracing_disabled Scripts.runs
       TF.BASE_URL TF.API_KEY TF.MODEL_NAME TF.stdout].
  rewrite !app_nil_r.
  destruct (truthy base_url && truthy api_key);
    project_state;
    destruct (Runtime.path_exists rt (McpExamples.samples_dir rt) w); cbn [negb];
    project_state; try reflexivity;
    destruct (Runtime.makedirs rt (McpExamples.samples_dir rt) w) as [[e|[]] w1];
    project_state; try reflexivity;
    destruct (Runtime.write_text rt (Scripts.join (McpExamples.samples_dir rt) ["example.txt"])
                                 "This is a sample file." w1) as [[e|[]] w2];
    reflexivity.
Qed.

End ScriptRuns.

(** ** The opening of [main] *)

Section Prologue.

Context {World : Type} (rt : Runtime.t World).

(** X9: when the opening block of [main] has built the provider, tracing is
    off if it was off before or the provider has a client of its own, and in
    no other case: the switch follows the client and is never turned back
    on. *)
Theorem tracing_follows_the_client :
  forall (s s' : Scripts.Process World) (p : TF.CustomModelProvider.t),
    McpExamples.main_prologue rt s = (Returned (inr p), s') ->
    (Scripts.tracing_disabled s' = true <->
     Scripts.tracing_disabled s = true \/ TF.CustomModelProvider.client p <> None).
Proof.
  intros s s' p. rewrite main_prologue_run. cbv zeta.
  assert (Hswitch :
            forall custom : bool,
              ((if custom then true else Scripts.tracing_disabled s) = true <->
               Scripts.tracing_disabled s = true \/
               (if custom return option AsyncOpenAI.t
                then Some (AsyncOpenAI.new (TF.BASE_URL (Scripts.globals s))
                                           (TF.API_KEY (Scripts.globals s)))
                else None) <> None)).
  { intros [|]; split.
    - intros _. right. discriminate.
    - reflexivity.
    - intros Hoff. left. exact Hoff.
    - intros [Hoff|Hclient]; [exact Hoff | contradiction Hclient; reflexivity]. }
  destruct (Runtime.path_exists rt (McpExamples.samples_dir rt) (Scripts.world s)).
  - intros Hrun. injection Hrun as <- <-. apply Hswitch.
  - destruct (Runtime.makedirs rt (McpExamples.samples_dir rt) (Scripts.world s))
      as [[e|[]] w1]; [discriminate|].
    destruct (Runtime.write_text rt _ _ w1) as [[e|[]] w2]; [discriminate|].
    intros Hrun. injection Hrun as <- <-. apply Hswitch.
Qed.

(** X10: the opening block of [main] never touches a sample directory that
    exists.  When the directory is missing it is created and [example.txt]
    is written into it; if creating it raises, nothing is written and the
    exception leaves [main], and so does an exception of the write. *)
Theorem existing_samples_are_untouched :
  forall s : Scripts.Process World,
    (Runtime.path_exists rt (McpExamples.samples_dir rt) (Scripts.world s) = true ->
     Scripts.world (final (McpExamples.main_prologue rt) s) = Scripts.world s /\
     exists p, outcome (McpExamples.main_prologue rt) s = Returned (inr p)) /\
    (Runtime.path_exists rt (McpExamples.samples_dir rt) (Scripts.world s) = false ->
     forall (e : Exc.t) (w1 : World),
       Runtime.makedirs rt (McpExamples.samples_dir rt) (Scripts.world s) = (inl e, w1) ->
       Scripts.world (final (McpExamples.main_prologue rt) s) = w1 /\
       outcome (McpExamples.main_prologue rt) s = Returned (inl e)) /\
    (Runtime.path_exists rt (McpExamples.samples_dir rt) (Scripts.world s) = false ->
     forall (w1 w2 : World) (written : Exc.t + unit),
       Runtime.makedirs rt (McpExamples.samples_dir rt) (Scripts.world s) = (inr tt, w1) ->
       Runtime.write_text rt (Scripts.join (McpExamples.samples_dir rt) ["example.txt"])
                          "This is a sample file." w1 = (written, w2) ->
       Scripts.world (final (McpExamples.main_prologue rt) s) = w2 /\
       match written with
       | inl e => outcome (McpExamples.main_prologue rt) s = Returned (inl e)
       | inr _ => exists p, outcome (McpExamples.main_prologue rt) s = Returned (inr p)
       end).
Proof.
  intros s. unfold final, outcome. rewrite main_prologue_run. cbv zeta.
  split; [|split].
  - intros ->. split; [reflexivity|]. eexists. reflexivity.
  - intros -> e w1 ->. split; reflexivity.
  - intros -> w1 w2 written -> ->. destruct written as [e|[]].
    + split; reflexivity.
    + split; [reflexivity|]. eexists. reflexivity.
Qed.

(** X11: on an operating system where a directory that has been created and
    written into exists afterwards, the opening block of [main] is idempotent
    on the world: once it has succeeded, running it again succeeds and leaves
    the world as it is. *)
Theorem prologue_is_idempotent :
  (forall w w1 w2 : World,
     Runtime.makedirs rt (McpExamples.samples_dir rt) w = (inr tt, w1) ->
     Runtime.write_text rt (Scripts.join (McpExamples.samples_dir rt) ["example.txt"])
                        "This is a sample file." w1 = (inr tt, w2) ->
     Runtime.path_exists rt (McpExamples.samples_dir rt) w2 = true) ->
  forall (s s' : Scripts.Process World) (p : TF.CustomModelProvider.t),
    McpExamples.main_prologue rt s = (Returned (inr p), s') ->
    Scripts.world (final (McpExamples.main_prologue rt) s') = Scripts.world s' /\
    exists p', outcome (McpExamples.main_prologue rt) s' = Returned (inr p').
Proof.
  intros Hos s s' p Hfirst.
  apply (proj1 (existing_samples_are_untouched s')).
  revert Hfirst. rewrite main_prologue_run. cbv zeta.
  destruct (Runtime.path_exists rt (McpExamples.samples_dir rt) (Scripts.world s))
    eqn:Hpresent.
  - intros Hfirst. injection Hfirst as _ <-. exact Hpresent.
  - destruct (Runtime.makedirs rt (McpExamples.samples_dir rt) (Scripts.world s))
      as [[e|[]] w1] eqn:Hmade; [discriminate|].
    destruct (Runtime.write_text rt _ _ w1) as [[e|[]] w2] eqn:Hwritten; [discriminate|].
    intros Hfirst. injection Hfirst as _ <-. exact (Hos _ _ _ Hmade Hwritten).
Qed.

End Prologue.

Lemma demo_prologue_returns :
  McpExamples.main_prologue demo_runtime demo_start =
  (Returned (inr (provider_of (TF.load demo_environ))),
   final (McpExamples.main_prologue demo_runtime) demo_start).
Proof.
  apply injective_projections; [vm_compute; reflexivity | reflexivity].
Qed.

Lemma tracing_follows_the_client_witness :
  McpExamples.main_prologue demo_runtime demo_start =
  (Returned (inr (provider_of (TF.load demo_environ))),
   final (McpExamples.main_prologue demo_runtime) demo_start) /\
  (Scripts.tracing_disabled (final (McpExamples.main_prologue demo_runtime) demo_start) = true <->
   Scripts.tracing_disabled demo_start = true \/
   TF.CustomModelProvider.client (provider_of (TF.load demo_environ)) <> None).
Proof.
  split; [exact demo_prologue_returns|].
  apply (tracing_follows_the_client demo_runtime demo_start _ _ demo_prologue_returns).
Defined.

Lemma existing_samples_are_untouched_witness :
  Runtime.path_exists demo_runtime (McpExamples.samples_dir demo_runtime)
                      (Scripts.world (final (McpExamples.main_prologue demo_runtime) demo_start))
  = true /\
  Scripts.world
    (final (McpExamples.main_prologue demo_runtime)
           (final (McpExamples.main_prologue demo_runtime) demo_start)) =
  Scripts.world (final (McpExamples.main_prologue demo_runtime) demo_start).
Proof.
  assert (Hpresent :
            Runtime.path_exists demo_runtime (McpExamples.samples_dir demo_runtime)
              (Scripts.world (final (McpExamples.main_prologue demo_runtime) demo_start))
            = true) by (vm_compute; reflexivity).
  split; [exact Hpresent|].
  exact (proj1 (proj1 (existing_samples_are_untouched
                         demo_runtime
                         (final (McpExamples.main_prologue demo_runtime) demo_start))
                      Hpresent)).
Defined.

Lemma prologue_is_idempotent_witness :
  McpExamples.main_prologue demo_runtime demo_start =
  (Returned (inr (provider_of (TF.load demo_environ))),
   final (McpExamples.main_prologue demo_runtime) demo_start) /\
  Scripts.world
    (final (McpExamples.main_prologue demo_runtime)
           (final (McpExamples.main_prologue demo_runtime) demo_start)) =
  Scripts.world (final (McpExamples.main_prologue demo_runtime) demo_start).
Proof.
  split; [exact demo_prologue_returns|].
  refine (proj1 (prologue_is_idempotent demo_runtime _ demo_start _ _ demo_prologue_returns)).
  intros w w1 w2 Hmade Hwritten.
  injection Hmade as <-. injection Hwritten as <-.
  apply bool_decide_eq_true. set_solver.
Defined.

(** ** What the scripts print before they start a server *)

Section Startup.

Context {World : Type} (rt : Runtime.t World).

(** The entry block, case by case. *)
Lemma entry_block_run (main : Scripts.X World unit) (s : Scripts.Process World) :
  McpExamples.__main__ rt main s =
  if truthy (Runtime.which rt "npx" (Scripts.world s)) then
    main (advanced s
            ["Model configuration:";
             "- MODEL_NAME: " ++ TF.MODEL_NAME (Scripts.globals s);
             "- MODEL_BASE_URL: " ++
               (if truthy (TF.BASE_URL (Scripts.globals s))
                then "configured" else "not configured");
             "- MODEL_API_KEY: " ++
               (if truthy (TF.API_KEY (Scripts.globals s))
                then "configured" else "not configured");
             ""]
            [] (Scripts.tracing_disabled s) (Scripts.world s) [])
  else
    (Returned
       (inl (Scripts.RuntimeError
               "npx is not installed. Please install Node.js and npm: https://nodejs.org/")),
     s).
Proof.
  unfold McpExamples.__main__.
  rewrite (bindx_returned _ _ _ _ _ (on_world_query_run (Runtime.which rt "npx") s)).
  destruct (truthy (Runtime.which rt "npx" (Scripts.world s))); cbn [negb];
    [|reflexivity].
  rewrite (bindx_returned _ _ _ _ _ (print_run _ s)).
  rewrite (bindx_returned _ _ _ _ _ (on_globals_read_run TF.MODEL_NAME _)).
  rewrite (bindx_returned _ _ _ _ _ (print_run _ _)).
  rewrite (bindx_returned _ _ _ _ _ (on_globals_read_run TF.BASE_URL _)).
  rewrite (bindx_returned _ _ _ _ _ (print_run _ _)).
  rewrite (bindx_returned _ _ _ _ _ (on_globals_read_run TF.API_KEY _)).
  rewrite (bindx_returned _ _ _ _ _ (print_run _ _)).
  rewrite (bindx_returned _ _ _ _ _ (print_run _ _)).
  rewrite !advanced_advanced. reflexivity.
Qed.

(** [main] of [dynamic_config_filter.py] in terms of its opening block. *)
Lemma dynamic_main_run (with_server : TF.CustomModelProvider.t -> Scripts.X World unit)
    (s : Scripts.Process World) :
  McpExamples.dynamic_config_filter_main rt with_server s =
  match McpExamples.main_prologue rt s with
  | (Returned (inr p), s') =>
      with_server p
        (advanced s'
           ["=== Context-aware dynamic tool filtering example ===";
            "Dynamically determine available tools based on agent role" ++ Scripts.LF]
           [] (Scripts.tracing_disabled s') (Scripts.world s') [])
  | (Returned (inl e), s') => (Returned (inl e), s')
  | (Raised x, s') => (Raised x, s')
  end.
Proof.
  unfold McpExamples.dynamic_config_filter_main.
  destruct (McpExamples.main_prologue rt s) as [[[e|p]|x] s'] eqn:Hprologue.
  - apply (bindx_raised _ _ _ _ _ Hprologue).
  - rewrite (bindx_returned _ _ _ _ _ Hprologue).
    rewrite (bindx_returned _ _ _ _ _ (print_run _ s')).
    rewrite (bindx_returned _ _ _ _ _ (print_run _ _)).
    rewrite advanced_advanced. reflexivity.
  - apply (bindx_exited _ _ _ _ _ Hprologue).
Qed.

(** X12: what [dynamic_config_filter.py] writes before it starts its server
    depends on the API key only through its being set: with two different
    non-empty keys in otherwise equal environments the script prints the same
    text, reaches the same outcome and leaves the same world. *)
Theorem startup_output_hides_the_key :
  forall (w : World) (environ : gmap string string) (key1 key2 : string),
    key1 <> "" -> key2 <> "" ->
    stdout_of (final (startup rt)
                     (Scripts.start (TF.load (<["MODEL_API_KEY" := key1]> environ)) w)) =
    stdout_of (final (startup rt)
                     (Scripts.start (TF.load (<["MODEL_API_KEY" := key2]> environ)) w)) /\
    Scripts.stderr (final (startup rt)
                          (Scripts.start (TF.load (<["MODEL_API_KEY" := key1]> environ)) w)) =
    Scripts.stderr (final (startup rt)
                          (Scripts.start (TF.load (<["MODEL_API_KEY" := key2]> environ)) w)) /\
    Scripts.world (final (startup rt)
                         (Scripts.start (TF.load (<["MODEL_API_KEY" := key1]> environ)) w)) =
    Scripts.world (final (startup rt)
                         (Scripts.start (TF.load (<["MODEL_API_KEY" := key2]> environ)) w)) /\
    outcome (startup rt)
            (Scripts.start (TF.load (<["MODEL_API_KEY" := key1]> environ)) w) =
    outcome (startup rt)
            (Scripts.start (TF.load (<["MODEL_API_KEY" := key2]> environ)) w).
Proof.
  intros w environ key1 key2 Hkey1 Hkey2.
  assert (Hload : forall key,
             key <> "" ->
             TF.load (<["MODEL_API_KEY" := key]> environ) =
             {| TF.BASE_URL := environ !! "MODEL_BASE_URL";
                TF.API_KEY := Some key;
                TF.MODEL_NAME := default "gpt-4o" (environ !! "MODEL_NAME");
                TF.stdout := [] |}).
  { intros key _. unfold TF.load, getenv, getenv_default.
    rewrite lookup_insert_eq, !lookup_insert_ne by discriminate. reflexivity. }
  rewrite (Hload key1 Hkey1), (Hload key2 Hkey2).
  unfold final, outcome, stdout_of, startup.
  rewrite !entry_block_run. unfold Scripts.start. project_state.
  destruct (truthy (Runtime.which rt "npx" w)); [|repeat split].
  rewrite !dynamic_main_run, !main_prologue_run. cbv zeta.
  unfold advanced. project_state.
  rewrite (truthy_nonempty key1 Hkey1), (truthy_nonempty key2 Hkey2).
  destruct (truthy (environ !! "MODEL_BASE_URL")), (Runtime.path_exists rt _ w);
    cbn [andb]; try (repeat split; fail);
    destruct (Runtime.makedirs rt (McpExamples.samples_dir rt) w) as [[e|[]] w1];
    try (repeat split; fail);
    destruct (Runtime.write_text rt _ _ w1) as [[e|[]] w2]; repeat split.
Qed.

End Startup.

Lemma startup_output_hides_the_key_witness :
  "sk-test" <> "" /\ "sk-other" <> "" /\
  stdout_of (final (startup demo_runtime)
                   (Scripts.start (TF.load (<["MODEL_API_KEY" := "sk-test"]> demo_environ)) ∅)) =
  stdout_of (final (startup demo_runtime)
                   (Scripts.start (TF.load (<["MODEL_API_KEY" := "sk-other"]> demo_environ)) ∅)).
Proof.
  assert (Hkey1 : "sk-test" <> "") by discriminate.
  assert (Hkey2 : "sk-other" <> "") by discriminate.
  split; [exact Hkey1|]. split; [exact Hkey2|].
  exact (proj1 (startup_output_hides_the_key demo_runtime ∅ demo_environ
                  "sk-test" "sk-other" Hkey1 Hkey2)).
Defined.

(** ** Runs and their failures *)

Section Attempts.

Context {World : Type} (rt : Runtime.t World).

Lemma Runner_run_run (agent : McpAgent.t) (input : string)
    (model_provider : TF.CustomModelProvider.t) (s : Scripts.Process World) :
  Scripts.Runner_run rt agent input model_provider s =
  (fst (Runtime.Runner_run rt agent input model_provider (Scripts.world s)),
   advanced s [] [] (Scripts.tracing_disabled s)
            (snd (Runtime.Runner_run rt agent input model_provider (Scripts.world s)))
            [(Agent.name (McpAgent.agent agent), input)]).
Proof.
  destruct s as [[base_url api_key model_name out] err disabled w calls].
  unfold Scripts.Runner_run, advanced. project_state.
  destruct (Runtime.Runner_run rt agent input model_provider w) as [r w'].
  cbn [fst snd]. rewrite !app_nil_r. reflexivity.
Qed.

Lemma get_all_tools_run (agent : McpAgent.t) (s : Scripts.Process World) :
  Scripts.get_all_tools rt agent s =
  (fst (Runtime.get_all_tools rt agent (Scripts.world s)),
   advanced s [] [] (Scripts.tracing_disabled s)
            (snd (Runtime.get_all_tools rt agent (Scripts.world s))) []).
Proof.
  destruct s as [[base_url api_key model_name out] err disabled w calls].
  unfold Scripts.get_all_tools, advanced. project_state.
  destruct (Runtime.get_all_tools rt agent w) as [r w'].
  cbn [fst snd]. rewrite !app_nil_r. reflexivity.
Qed.

(** A guarded run: whatever [Runner.run] returns or raises, the [try]
    statement returns once the handler has reported, and the call is on the
    log; only an exception that [except Exception] does not catch gets out. *)
Lemma attempt_run (handler : Exc.t -> Scripts.X World unit) (agent : McpAgent.t)
    (message : string) (model_provider : TF.CustomModelProvider.t)
    (s : Scripts.Process World) :
  (forall e, reports (handler e)) ->
  exists lines errors,
    Scripts.try_except
      (result <~ Scripts.Runner_run rt agent message model_provider ;;
       Scripts.print result)
      handler s =
    (match fst (Runtime.Runner_run rt agent message model_provider (Scripts.world s)) with
     | Returned _ => Returned (inr tt)
     | Raised x => Raised x
     end,
     advanced s lines errors (Scripts.tracing_disabled s)
              (snd (Runtime.Runner_run rt agent message model_provider (Scripts.world s)))
              [(Agent.name (McpAgent.agent agent), message)]).
Proof.
  intros Hhandler.
  unfold Scripts.try_except, Scripts.bindx, bind. rewrite Runner_run_run.
  destruct (Runtime.Runner_run rt agent message model_provider (Scripts.world s))
    as [[[e|output]|x] w']; cbn [fst snd].
  - destruct (Hhandler e (advanced s [] [] (Scripts.tracing_disabled s) w'
                                   [(Agent.name (McpAgent.agent agent), message)]))
      as [lines [errors Hreport]].
    exists lines, errors. cbn [ret]. unfold ret. rewrite Hreport, advanced_advanced.
    project_advanced. rewrite app_nil_r. reflexivity.
  - exists [output], []. rewrite print_run. unfold ret. rewrite advanced_advanced.
    project_advanced. reflexivity.
  - exists [], []. reflexivity.
Qed.

End Attempts.

Section AgentRuns.

Context {World : Type} (rt : Runtime.t World).

Lemma reports_handler (e : Exc.t) :
  reports (Scripts.print ("Exception occurred: " ++ Exc.str e) ;;~ Scripts.print_exc rt e).
Proof. apply reports_seq; [apply reports_print | apply reports_print_exc]. Qed.

Lemma print_agent_tools_run (agent : McpAgent.t) (s : Scripts.Process World) :
  McpExamples.print_agent_tools rt agent s =
  match fst (Runtime.get_all_tools rt agent (Scripts.world s)) with
  | Returned (inr tools) =>
      (Returned (inr tt),
       advanced s
         ["Agent '" ++ Agent.name (McpAgent.agent agent) ++ "' available tools: " ++
          Scripts.fmt_list (Runtime.repr_str rt) (map Tool.name tools)]
         [] (Scripts.tracing_disabled s)
         (snd (Runtime.get_all_tools rt agent (Scripts.world s))) [])
  | Returned (inl e) =>
      (Returned (inl e),
       advanced s [] [] (Scripts.tracing_disabled s)
                (snd (Runtime.get_all_tools rt agent (Scripts.world s))) [])
  | Raised x =>
      (Raised x,
       advanced s [] [] (Scripts.tracing_disabled s)
                (snd (Runtime.get_all_tools rt agent (Scripts.world s))) [])
  end.
Proof.
  unfold McpExamples.print_agent_tools, Scripts.bindx, bind.
  rewrite get_all_tools_run.
  destruct (Runtime.get_all_tools rt agent (Scripts.world s)) as [[[e|tools]|x] w'];
    cbn [fst snd]; try reflexivity.
  rewrite print_run, advanced_advanced. project_advanced. reflexivity.
Qed.

(** [run_agent], according to what listing the tools gives. *)
Lemma run_agent_run (agent : McpAgent.t) (model_provider : TF.CustomModelProvider.t)
    (message : string) (s : Scripts.Process World) :
  match fst (Runtime.get_all_tools rt agent (Scripts.world s)) with
  | Returned (inr tools) =>
      exists lines errors,
        McpExamples.run_agent rt agent model_provider message s =
        (match fst (Runtime.Runner_run rt agent message model_provider
                      (snd (Runtime.get_all_tools rt agent (Scripts.world s)))) with
         | Returned _ => Returned (inr tt)
         | Raised x => Raised x
         end,
         advanced s lines errors (Scripts.tracing_disabled s)
           (snd (Runtime.Runner_run rt agent message model_provider
                   (snd (Runtime.get_all_tools rt agent (Scripts.world s)))))
           [(Agent.name (McpAgent.agent agent), message)])
  | Returned (inl e) =>
      McpExamples.run_agent rt agent model_provider message s =
      (Returned (inl e),
       advanced s [Scripts.LF ++ "=== Agent: " ++ Agent.name (McpAgent.agent agent) ++ " ==="]
                [] (Scripts.tracing_disabled s)
                (snd (Runtime.get_all_tools rt agent (Scripts.world s))) [])
  | Raised x =>
      McpExamples.run_agent rt agent model_provider message s =
      (Raised x,
       advanced s [Scripts.LF ++ "=== Agent: " ++ Agent.name (McpAgent.agent agent) ++ " ==="]
                [] (Scripts.tracing_disabled s)
                (snd (Runtime.get_all_tools rt agent (Scripts.world s))) [])
  end.
Proof.
  unfold McpExamples.run_agent.
  rewrite (bindx_returned _ _ _ _ _ (print_run _ s)).
  pose proof (print_agent_tools_run agent
                (advanced s [Scripts.LF ++ "=== Agent: " ++
                             Agent.name (McpAgent.agent agent) ++ " ==="]
                          [] (Scripts.tracing_disabled s) (Scripts.world s) [])) as Hlist.
  revert Hlist. project_advanced.
  destruct (Runtime.get_all_tools rt agent (Scripts.world s)) as [[[e|tools]|x] w'];
    cbn [fst snd]; intros Hlist.
  - rewrite (bindx_raised _ _ _ _ _ Hlist), advanced_advanced. reflexivity.
  - rewrite (bindx_returned _ _ _ _ _ Hlist), advanced_advanced.
    rewrite (bindx_returned _ _ _ _ _ (print_run _ _)), advanced_advanced.
    project_advanced.
    match goal with
    | |- context [Scripts.try_except ?body ?handler ?state] =>
        destruct (attempt_run rt handler agent message model_provider state reports_handler)
          as [lines [errors Hattempt]]
    end.
    revert Hattempt. project_advanced. intros Hattempt.
    rewrite Hattempt, advanced_advanced. eexists. eexists. reflexivity.
  - rewrite (bindx_exited _ _ _ _ _ Hlist), advanced_advanced. reflexivity.
Qed.

End AgentRuns.

Section Containment.

Context {World : Type} (rt : Runtime.t World).

(** X13: [run_agent] lists the tools of the agent outside its [try]
    statement.  If listing them raises, that exception leaves [run_agent]
    right after the header has been printed and [Runner.run] is not called.
    If listing them succeeds, [Runner.run] is called once with the agent and
    the message, and no exception it raises leaves [run_agent], except one that
    [except Exception] does not catch. *)
Theorem run_agent_contains_run_failures :
  forall (agent : McpAgent.t) (model_provider : TF.CustomModelProvider.t)
         (message : string) (s : Scripts.Process World),
    (forall (e : Exc.t) (w' : World),
       Runtime.get_all_tools rt agent (Scripts.world s) = (Returned (inl e), w') ->
       outcome (McpExamples.run_agent rt agent model_provider message) s = Returned (inl e) /\
       Scripts.runs (final (McpExamples.run_agent rt agent model_provider message) s) =
       Scripts.runs s /\
       stdout_of (final (McpExamples.run_agent rt agent model_provider message) s) =
       (stdout_of s ++
        [(Scripts.LF ++ "=== Agent: " ++ Agent.name (McpAgent.agent agent) ++ " ===")%string])%list) /\
    (forall (tools : list Tool.t) (w' : World),
       Runtime.get_all_tools rt agent (Scripts.world s) = (Returned (inr tools), w') ->
       (outcome (McpExamples.run_agent rt agent model_provider message) s = Returned (inr tt) \/
        exists x, outcome (McpExamples.run_agent rt agent model_provider message) s = Raised x) /\
       Scripts.runs (final (McpExamples.run_agent rt agent model_provider message) s) =
       (Scripts.runs s ++ [(Agent.name (McpAgent.agent agent), message)])%list).
Proof.
  intros agent model_provider message s.
  pose proof (run_agent_run rt agent model_provider message s) as Hrun.
  unfold outcome, final, stdout_of. split.
  - intros e w' Hlist. rewrite Hlist in Hrun. cbn [fst snd] in Hrun. rewrite Hrun.
    cbn [fst snd]. project_advanced. rewrite app_nil_r. repeat split.
  - intros tools w' Hlist. rewrite Hlist in Hrun. cbn [fst snd] in Hrun.
    destruct Hrun as [lines [errors Hrun]]. rewrite Hrun. cbn [fst snd]. project_advanced.
    split; [|reflexivity].
    destruct (fst (Runtime.Runner_run rt agent message model_provider w')) as [r|x];
      [left; reflexivity | right; exists x; reflexivity].
Qed.

(** Under a runtime that lists tools and never ends a run in an exception of
    the other kind, [run_agent] returns and logs its run. *)
Lemma run_agent_returns (agent : McpAgent.t) (model_provider : TF.CustomModelProvider.t)
    (message : string) (s : Scripts.Process World) :
  (forall a w, exists tools, fst (Runtime.get_all_tools rt a w) = Returned (inr tools)) ->
  (forall a input p w, exists r, fst (Runtime.Runner_run rt a input p w) = Returned r) ->
  exists s',
    McpExamples.run_agent rt agent model_provider message s = (Returned (inr tt), s') /\
    Scripts.runs s' = (Scripts.runs s ++ [(Agent.name (McpAgent.agent agent), message)])%list.
Proof.
  intros Hlists Hruns.
  pose proof (run_agent_run rt agent model_provider message s) as Hrun.
  destruct (Hlists agent (Scripts.world s)) as [tools Htools]. rewrite Htools in Hrun.
  destruct Hrun as [lines [errors Hrun]].
  destruct (Hruns agent message model_provider
                  (snd (Runtime.get_all_tools rt agent (Scripts.world s)))) as [r Hr].
  rewrite Hr in Hrun. eexists. split; [exact Hrun|]. reflexivity.
Qed.

(** The three tasks of one agent, then those of the agents that follow. *)
Lemma for_each_agent_returns (model_provider : TF.CustomModelProvider.t)
    (agents : list McpAgent.t) (s : Scripts.Process World) :
  (forall a w, exists tools, fst (Runtime.get_all_tools rt a w) = Returned (inr tools)) ->
  (forall a input p w, exists r, fst (Runtime.Runner_run rt a input p w) = Returned r) ->
  exists s',
    McpExamples.for_each
      (fun agent =>
         McpExamples.run_agent rt agent model_provider "List all available files." ;;~
         McpExamples.run_agent rt agent model_provider "Delete a file." ;;~
         McpExamples.run_agent rt agent model_provider "Write to a file.")
      agents s = (Returned (inr tt), s') /\
    Scripts.runs s' =
    (Scripts.runs s ++
     flat_map (fun agent =>
                 [(Agent.name (McpAgent.agent agent), "List all available files.");
                  (Agent.name (McpAgent.agent agent), "Delete a file.");
                  (Agent.name (McpAgent.agent agent), "Write to a file.")])
              agents)%list.
Proof.
  intros Hlists Hruns. revert s.
  induction agents as [|agent agents IH]; intros s.
  - exists s. split; [reflexivity|]. cbn [flat_map]. rewrite app_nil_r. reflexivity.
  - destruct (run_agent_returns agent model_provider "List all available files." s
                Hlists Hruns) as [s1 [Hrun1 Hlog1]].
    destruct (run_agent_returns agent model_provider "Delete a file." s1
                Hlists Hruns) as [s2 [Hrun2 Hlog2]].
    destruct (run_agent_returns agent model_provider "Write to a file." s2
                Hlists Hruns) as [s3 [Hrun3 Hlog3]].
    destruct (IH s3) as [s' [Hrest Hlog]].
    exists s'. split.
    + cbn [McpExamples.for_each].
      assert (Hbody :
                (McpExamples.run_agent rt agent model_provider "List all available files." ;;~
                 McpExamples.run_agent rt agent model_provider "Delete a file." ;;~
                 McpExamples.run_agent rt agent model_provider "Write to a file.") s =
                (Returned (inr tt), s3)).
      { rewrite (bindx_returned _ _ _ _ _ Hrun1), (bindx_returned _ _ _ _ _ Hrun2).
        exact Hrun3. }
      rewrite (bindx_returned _ _ _ _ _ Hbody). exact Hrest.
    + rewrite Hlog, Hlog3, Hlog2, Hlog1. cbn [flat_map]. rewrite <- !app_assoc.
      reflexivity.
Qed.

(** X14: in the session of [dynamic_config_filter.py], when the tools can be
    listed and no run ends in an exception that [except Exception] does not
    catch, every agent is put to every task whatever the runs return or raise:
    the session returns, and the runs it has made are the nine pairs of agent
    and task, agent by agent, in the order of the source. *)
Theorem session_makes_all_nine_runs :
  (forall a w, exists tools, fst (Runtime.get_all_tools rt a w) = Returned (inr tools)) ->
  (forall a input p w, exists r, fst (Runtime.Runner_run rt a input p w) = Returned r) ->
  forall (server : MCPServer.t) (model_provider : TF.CustomModelProvider.t)
         (s : Scripts.Process World),
    outcome (McpExamples.session rt server model_provider) s = Returned (inr tt) /\
    Scripts.runs (final (McpExamples.session rt server model_provider) s) =
    (Scripts.runs s ++
     [("ReadOnlyAgent", "List all available files.");
      ("ReadOnlyAgent", "Delete a file.");
      ("ReadOnlyAgent", "Write to a file.");
      ("AdminAgent", "List all available files.");
      ("AdminAgent", "Delete a file.");
      ("AdminAgent", "Write to a file.");
      ("BasicAgent", "List all available files.");
      ("BasicAgent", "Delete a file.");
      ("BasicAgent", "Write to a file.")])%list.
Proof.
  intros Hlists Hruns server model_provider s.
  destruct (for_each_agent_returns model_provider (McpExamples.agents server) s
              Hlists Hruns) as [s' [Hsession Hlog]].
  unfold outcome, final, McpExamples.session. rewrite Hsession.
  split; [reflexivity|]. exact Hlog.
Qed.

End Containment.

Section MainRuns.

Context {World : Type} (rt : Runtime.t World).

Lemma reports_first_handler (e : Exc.t) :
  reports (Scripts.print ("Exception occurred: " ++ Exc.str e) ;;~
           Scripts.print_exc rt e ;;~
           match Exc.__cause__ e with
           | Some cause =>
               Scripts.print ("Underlying cause: " ++ Exc.repr cause) ;;~
               match Exc.__cause__ cause with
               | Some subcause => Scripts.print ("Deeper cause: " ++ Exc.repr subcause)
               | None => Scripts.retx tt
               end
           | None => Scripts.retx tt
           end).
Proof.
  apply reports_seq; [apply reports_print|].
  apply reports_seq; [apply reports_print_exc|].
  destruct (Exc.__cause__ e) as [cause|]; [|apply reports_retx].
  apply reports_seq; [apply reports_print|].
  destruct (Exc.__cause__ cause); [apply reports_print | apply reports_retx].
Qed.

Lemma reports_last_handler (e : Exc.t) :
  reports (Scripts.print (World := World) ("Exception occurred: " ++ Exc.str e)).
Proof. apply reports_print. Qed.

(** X15: what [run_with_static_filter] does is decided by its two calls of
    [Runner.run] for the agent [Assistant].  The first asks to read and list
    the files.  If it returns, or raises an exception that [except Exception]
    catches, the function goes on and makes the second call, which asks to
    delete a file, in the world the first call has left; the function then
    returns, unless the second call raises an exception that [except
    Exception] does not catch, which ends it.  If the first call raises such
    an exception, that exception ends the function and the second call is not
    made. *)
Theorem static_run_attempts_both_tasks :
  forall (mcp_server : MCPServer.t) (model_provider : TF.CustomModelProvider.t)
         (s : Scripts.Process World),
    match Runtime.Runner_run rt (McpExamples.assistant mcp_server)
                             "Read and list available files." model_provider
                             (Scripts.world s) with
    | (Returned _, w1) =>
        Scripts.runs
          (final (McpExamples.run_with_static_filter rt mcp_server model_provider) s) =
        (Scripts.runs s ++
         [("Assistant", "Read and list available files.");
          ("Assistant", "Delete a file.")])%list /\
        outcome (McpExamples.run_with_static_filter rt mcp_server model_provider) s =
        match fst (Runtime.Runner_run rt (McpExamples.assistant mcp_server)
                                      "Delete a file." model_provider w1) with
        | Returned _ => Returned (inr tt)
        | Raised x => Raised x
        end
    | (Raised x, _) =>
        Scripts.runs
          (final (McpExamples.run_with_static_filter rt mcp_server model_provider) s) =
        (Scripts.runs s ++ [("Assistant", "Read and list available files.")])%list /\
        outcome (McpExamples.run_with_static_filter rt mcp_server model_provider) s =
        Raised x
    end.
Proof.
  intros mcp_server model_provider s.
  unfold outcome, final, McpExamples.run_with_static_filter. cbv zeta.
  rewrite (bindx_returned _ _ _ _ _ (print_run _ s)).
  match goal with
  | |- context [Scripts.bindx
                  (Scripts.try_except
                     (Scripts.bindx (Scripts.Runner_run rt ?a ?m ?p) _) ?h) _ ?st] =>
      destruct (attempt_run rt h a m p st reports_first_handler)
        as [lines1 [errors1 Hfirst]]
  end.
  rewrite !world_advanced in Hfirst.
  destruct (Runtime.Runner_run rt (McpExamples.assistant mcp_server)
                               "Read and list available files." model_provider
                               (Scripts.world s)) as [[r1|x1] w1];
    cbn [fst snd] in Hfirst.
  - rewrite (bindx_returned _ _ _ _ _ Hfirst).
    rewrite (bindx_returned _ _ _ _ _ (print_run _ _)).
    match goal with
    | |- context [Scripts.try_except
                    (Scripts.bindx (Scripts.Runner_run rt ?a ?m ?p) _) ?h ?st] =>
        destruct (attempt_run rt h a m p st reports_last_handler)
          as [lines2 [errors2 Hsecond]]
    end.
    rewrite Hsecond. cbn [fst snd]. rewrite !world_advanced.
    split; [|reflexivity].
    project_advanced. rewrite !app_nil_r, <- !app_assoc. reflexivity.
  - rewrite (bindx_exited _ _ _ _ _ Hfirst). cbn [fst snd].
    split; [|reflexivity].
    project_advanced. rewrite !app_nil_r. reflexivity.
Qed.

End MainRuns.

Lemma demo_runtime_lists_tools :
  forall (a : McpAgent.t) (w : gset (list string)),
  exists tools, fst (Runtime.get_all_tools demo_runtime a w) = Returned (inr tools).
Proof. intros a w. eexists. reflexivity. Qed.

Lemma demo_runtime_runs_return :
  forall (a : McpAgent.t) (input : string) (p : TF.CustomModelProvider.t)
         (w : gset (list string)),
  exists r, fst (Runtime.Runner_run demo_runtime a input p w) = Returned r.
Proof.
  intros a input p w. cbn [Runtime.Runner_run demo_runtime].
  destruct (String.eqb input "Delete a file."); eexists; reflexivity.
Qed.

Lemma run_agent_contains_run_failures_witness :
  Runtime.get_all_tools demo_runtime demo_agent (Scripts.world demo_start) =
  (Returned (inr [Tool.new "read_file" ∅; Tool.new "list_directory" ∅]), ∅) /\
  Scripts.runs (final (McpExamples.run_agent demo_runtime demo_agent
                         (provider_of (TF.load demo_environ)) "Delete a file.")
                      demo_start) =
  (Scripts.runs demo_start ++ [("ReadOnlyAgent", "Delete a file.")])%list.
Proof.
  split; [reflexivity|].
  exact (proj2 (proj2 (run_agent_contains_run_failures
                         demo_runtime demo_agent (provider_of (TF.load demo_environ))
                         "Delete a file." demo_start)
                      _ _ eq_refl)).
Defined.

Lemma session_makes_all_nine_runs_witness :
  outcome (McpExamples.session demo_runtime demo_server (provider_of (TF.load demo_environ)))
          demo_start = Returned (inr tt).
Proof.
  exact (proj1 (session_makes_all_nine_runs
                  demo_runtime demo_runtime_lists_tools demo_runtime_runs_return
                  demo_server (provider_of (TF.load demo_environ)) demo_start)).
Defined.

(** ** What [main.py] prints when it is loaded *)

Section Disclosure.

Lemma append_inj_l (prefix a b : string) : prefix ++ a = prefix ++ b -> a = b.
Proof.
  induction prefix as [|c prefix IH]; intros Heq; [exact Heq|].
  rewrite !append_cons in Heq. injection Heq as Heq. exact (IH Heq).
Qed.

(** Two texts whose first lines have no line feed inside are equal only if
    their first lines are equal and what follows them is equal. *)
Lemma first_line_inj (a b rest1 rest2 : string) :
  single_line a = true -> single_line b = true ->
  a ++ Scripts.LF ++ rest1 = b ++ Scripts.LF ++ rest2 ->
  a = b /\ rest1 = rest2.
Proof.
  revert b. induction a as [|c a IH]; intros [|d b] Ha Hb Heq.
  - change (String (Ascii.ascii_of_nat 10) rest1 = String (Ascii.ascii_of_nat 10) rest2)
      in Heq.
    injection Heq as Heq. split; [reflexivity | exact Heq].
  - change (String (Ascii.ascii_of_nat 10) rest1 =
            String d (b ++ Scripts.LF ++ rest2)) in Heq.
    injection Heq as Hd _. cbn [single_line] in Hb. rewrite <- Hd in Hb.
    discriminate Hb.
  - change (String c (a ++ Scripts.LF ++ rest1) =
            String (Ascii.ascii_of_nat 10) rest2) in Heq.
    injection Heq as Hc _. cbn [single_line] in Ha. rewrite Hc in Ha.
    discriminate Ha.
  - change (String c (a ++ Scripts.LF ++ rest1) = String d (b ++ Scripts.LF ++ rest2))
      in Heq.
    injection Heq as Hc Hrest. cbn [single_line] in Ha, Hb.
    apply andb_true_iff in Ha, Hb.
    destruct (IH b (proj2 Ha) (proj2 Hb) Hrest) as [Hab Hrests].
    rewrite Hc, Hab. split; [reflexivity | exact Hrests].
Qed.

(** X17: [main.py] writes the API key to standard output when the module is
    loaded.  Each [print] writes its argument and a line feed; when the keys
    and the base URLs of two environments have no line feed inside, and the two
    loads have written the same text, the keys they were given are equal. *)
Theorem main_module_output_reveals_the_key :
  forall (environ1 environ2 : gmap string string) (key1 key2 : string),
    environ1 !! "MODEL_API_KEY" = Some key1 ->
    environ2 !! "MODEL_API_KEY" = Some key2 ->
    single_line (fmt (environ1 !! "MODEL_BASE_URL")) = true ->
    single_line (fmt (environ2 !! "MODEL_BASE_URL")) = true ->
    single_line key1 = true ->
    single_line key2 = true ->
    text_of (TF.stdout (TF.load_main environ1)) =
    text_of (TF.stdout (TF.load_main environ2)) ->
    key1 = key2.
Proof.
  intros environ1 environ2 key1 key2 Hkey1 Hkey2 Hurl1 Hurl2 Hline1 Hline2.
  unfold TF.load_main, final, bind, TF.print, modify, TF.load, getenv.
  cbn [snd fst TF.stdout TF.BASE_URL TF.API_KEY TF.MODEL_NAME app text_of fold_right].
  rewrite Hkey1, Hkey2. cbn [fmt default]. intros Htext.
  apply first_line_inj in Htext; [|exact Hurl1|exact Hurl2].
  destruct Htext as [_ Htext].
  apply first_line_inj in Htext; [|exact Hline1|exact Hline2].
  destruct Htext as [Hkeys _].
  exact (append_inj_l "API_KEY: " key1 key2 Hkeys).
Qed.

Lemma main_module_output_reveals_the_key_witness :
  demo_environ !! "MODEL_API_KEY" = Some "sk-test" /\
  (<[ "MODEL_NAME" := "gpt-4o" ]> demo_environ) !! "MODEL_API_KEY" = Some "sk-test" /\
  text_of (TF.stdout (TF.load_main demo_environ)) =
  text_of (TF.stdout (TF.load_main (<[ "MODEL_NAME" := "gpt-4o" ]> demo_environ))) /\
  "sk-test" = "sk-test".
Proof.
  assert (Hkey1 : demo_environ !! "MODEL_API_KEY" = Some "sk-test") by reflexivity.
  assert (Hkey2 : (<[ "MODEL_NAME" := "gpt-4o" ]> demo_environ) !! "MODEL_API_KEY" =
                  Some "sk-test") by reflexivity.
  assert (Htext : text_of (TF.stdout (TF.load_main demo_environ)) =
                  text_of (TF.stdout (TF.load_main
                                        (<[ "MODEL_NAME" := "gpt-4o" ]> demo_environ))))
    by reflexivity.
  split; [exact Hkey1|]. split; [exact Hkey2|]. split; [exact Htext|].
  exact (main_module_output_reveals_the_key
           demo_environ (<[ "MODEL_NAME" := "gpt-4o" ]> demo_environ)
           "sk-test" "sk-test" Hkey1 Hkey2 eq_refl eq_refl eq_refl eq_refl Htext).
Defined.

End Disclosure.
